(** * node-pptx-parser: the slide loader and the slide text extractor

    A shallow embedding of [src/index.ts] (class [PptxParser]) and of the
    interfaces of [src/types.ts].

    The parser works on values of TypeScript type [any]: the trees built
    by the XML parser.  They are modelled by [JSValue].  A JavaScript
    exception is modelled by the [Throw] case of [Result]; a rejected
    promise of an [async] method is the same case. *)

From Stdlib Require Import String Ascii List Bool Arith Lia.
Import ListNotations.
Open Scope string_scope.

(** ** Exceptions *)

(** The [TypeError]s the engine raises in the code paths of this class. *)
Inductive TypeErrorKind : Type :=
| CannotRead (key : string)      (* property read on [undefined] or [null] *)
| NotAFunction (name : string)   (* call of a property that is no function *)
| NoPrimitive.                   (* an object that converts to no string *)

Inductive Exn : Type :=
| Error (message : string)       (* [new Error(message)], or a library error *)
| TypeError (kind : TypeErrorKind).

Inductive Result (A : Type) : Type :=
| Ok (a : A)
| Throw (e : Exn).

Arguments Ok {A} a.
Arguments Throw {A} e.

Definition bind {A B : Type} (r : Result A) (k : A -> Result B) : Result B :=
  match r with
  | Ok a => k a
  | Throw e => Throw e
  end.

Notation "x <- r ;; k" := (bind r (fun x => k))
  (at level 61, r at next level, right associativity).

(** ** JavaScript values *)

(** The values that occur in a parsed XML document: strings, arrays and
    objects, with [undefined] for a missing property and [null].  A string
    is a sequence of code units, one [ascii] each.  An object is the list
    of its own properties; all of them hold data, none is callable. *)
Unset Elimination Schemes.
Inductive JSValue : Type :=
| JUndefined
| JNull
| JString (s : string)
| JArray (items : list JSValue)
| JObject (fields : list (string * JSValue)).
Set Elimination Schemes.

Definition newline : string := String "010"%char EmptyString.

Fixpoint lookup (k : string) (fields : list (string * JSValue)) : JSValue :=
  match fields with
  | [] => JUndefined
  | (k', v) :: rest => if (k' =? k)%string then v else lookup k rest
  end.

Definition hasOwn (k : string) (fields : list (string * JSValue)) : bool :=
  existsb (fun kv => (fst kv =? k)%string) fields.

Definition nullish (v : JSValue) : bool :=
  match v with
  | JUndefined | JNull => true
  | _ => false
  end.

(** [v[k]] on a value that is neither [undefined] nor [null], for the
    element and attribute names this class reads.  None of them names a
    property of [String.prototype], [Array.prototype] or
    [Object.prototype], so only an object's own property answers. *)
Definition prop (v : JSValue) (k : string) : JSValue :=
  match v with
  | JObject fields => lookup k fields
  | _ => JUndefined
  end.

(** [v[0]] on such a value: the first element of an array, the first code
    unit of a string, the property ["0"] of an object. *)
Definition first (v : JSValue) : JSValue :=
  match v with
  | JArray (x :: _) => x
  | JString (String c _) => JString (String c EmptyString)
  | JObject fields => lookup "0" fields
  | _ => JUndefined
  end.

(** [v[k]] *)
Definition get (v : JSValue) (k : string) : Result JSValue :=
  if nullish v then Throw (TypeError (CannotRead k)) else Ok (prop v k).

(** [v[0]] *)
Definition get0 (v : JSValue) : Result JSValue :=
  if nullish v then Throw (TypeError (CannotRead "0")) else Ok (first v).

(** The condition of [if (v)] and of [v && ...]. *)
Definition truthy (v : JSValue) : bool :=
  match v with
  | JUndefined | JNull => false
  | JString EmptyString => false
  | _ => true
  end.

(** ** Conversion to string *)

Section ToString.

(** Whether the objects of the tree inherit from [Object.prototype] (an
    object literal does) or have no prototype at all (as an object made by
    [Object.create(null)]).  The property list of [JObject] does not tell. *)
Variable ordinaryPrototype : bool.

(** [OrdinaryToPrimitive] with hint string.  An own [toString] is data,
    hence skipped; the inherited [toString] answers ["[object Object]"];
    [valueOf], own or inherited, never gives a primitive. *)
Definition objectToString (fields : list (string * JSValue)) : Result string :=
  if ordinaryPrototype && negb (hasOwn "toString" fields)
  then Ok "[object Object]"
  else Throw (TypeError NoPrimitive).

(** [Array.prototype.join]: [undefined] and [null] elements give the empty
    string, every other element its [ToString]. *)
Definition joinWith (toStr : JSValue -> Result string) (sep : string)
  : list JSValue -> Result string :=
  fix go (items : list JSValue) : Result string :=
    match items with
    | [] => Ok ""
    | x :: rest =>
        s <- (if nullish x then Ok "" else toStr x) ;;
        match rest with
        | [] => Ok s
        | _ :: _ => r <- go rest ;; Ok (s ++ sep ++ r)
        end
    end.

(** [ToString(v)], as a template literal applies it. *)
Fixpoint toStringJS (v : JSValue) : Result string :=
  match v with
  | JUndefined => Ok "undefined"
  | JNull => Ok "null"
  | JString s => Ok s
  | JArray items => joinWith toStringJS "," items
  | JObject fields => objectToString fields
  end.

(** [items.join(sep)] *)
Definition join (items : list JSValue) (sep : string) : Result string :=
  joinWith toStringJS sep items.

End ToString.

(** [strings.join(sep)] on an array that holds strings only. *)
Fixpoint joinStrings (strings : list string) (sep : string) : string :=
  match strings with
  | [] => ""
  | s :: rest =>
      match rest with
      | [] => s
      | _ :: _ => s ++ sep ++ joinStrings rest sep
      end
  end.

(** ** Array methods *)

Section ArrayMethods.

Context {S : Type}.

Fixpoint each (callback : JSValue -> S -> Result S) (items : list JSValue)
  (s : S) : Result S :=
  match items with
  | [] => Ok s
  | x :: rest => s' <- callback x s ;; each callback rest s'
  end.

(** [v.forEach(callback)], the callback updating the state [s]. *)
Definition forEach (v : JSValue) (callback : JSValue -> S -> Result S)
  (s : S) : Result S :=
  match v with
  | JArray items => each callback items s
  | JUndefined | JNull => Throw (TypeError (CannotRead "forEach"))
  | _ => Throw (TypeError (NotAFunction "forEach"))
  end.

End ArrayMethods.

Fixpoint filterM {A : Type} (p : A -> Result bool) (l : list A)
  : Result (list A) :=
  match l with
  | [] => Ok []
  | x :: rest =>
      b <- p x ;;
      r <- filterM p rest ;;
      Ok (if b then x :: r else r)
  end.

Fixpoint mapM {A B : Type} (f : A -> Result B) (l : list A)
  : Result (list B) :=
  match l with
  | [] => Ok []
  | x :: rest => y <- f x ;; r <- mapM f rest ;; Ok (y :: r)
  end.

(** [String.prototype.endsWith]: the last [length suffix] code units of
    [s] are compared with [suffix]. *)
Definition endsWith (s suffix : string) : bool :=
  let len := String.length s in
  let n := String.length suffix in
  if (n <=? len)%nat then (substring (len - n) n s =? suffix)%string else false.

(** [v.endsWith(suffix)] *)
Definition callEndsWith (v : JSValue) (suffix : string) : Result bool :=
  match v with
  | JString s => Ok (endsWith s suffix)
  | JUndefined | JNull => Throw (TypeError (CannotRead "endsWith"))
  | _ => Throw (TypeError (NotAFunction "endsWith"))
  end.

(** [v.filter(predicate)] *)
Definition arrayFilter (v : JSValue) (predicate : JSValue -> Result bool)
  : Result (list JSValue) :=
  match v with
  | JArray items => filterM predicate items
  | JUndefined | JNull => Throw (TypeError (CannotRead "filter"))
  | _ => Throw (TypeError (NotAFunction "filter"))
  end.

(** [files.find(predicate)], the predicate being evaluated on every entry
    up to the first match. *)
Fixpoint findM {A : Type} (predicate : A -> Result bool) (l : list A)
  : Result (option A) :=
  match l with
  | [] => Ok None
  | x :: rest =>
      b <- predicate x ;;
      if b then Ok (Some x) else findM predicate rest
  end.

(** [slides.filter((slide) => slide !== null)] *)
Fixpoint dropNull {A : Type} (l : list (option A)) : list A :=
  match l with
  | [] => []
  | Some x :: rest => x :: dropNull rest
  | None :: rest => dropNull rest
  end.

(** ** The interfaces of [types.ts] and the archive entries *)

Module SlideRelation.
Record t : Type := mk { id : JSValue; target : JSValue }.
End SlideRelation.

Module ParsedSlide.
Record t : Type :=
  mk { id : JSValue; path : string; xml : string; parsed : JSValue }.
End ParsedSlide.

(** The object type of the fields [presentation] and [relationships]. *)
Module Part.
Record t : Type := mk { path : string; xml : string; parsed : JSValue }.
End Part.

Module ParsedPresentation.
Record t : Type :=
  mk { presentation : Part.t; relationships : Part.t;
       slides : list ParsedSlide.t }.
End ParsedPresentation.

(** An entry of the opened archive: its path and what its stream emits,
    the [data] chunks and then either [end] or an [error].  The stream
    emits buffers, and [data += chunk] converts each buffer to a string on
    its own: a chunk is held here as the string its buffer converts to.
    Cutting the bytes of an entry elsewhere can therefore give other chunk
    strings, when a character is cut in two. *)
Module File.
Record t : Type :=
  mk { path : string; chunks : list string; failure : option Exn }.
End File.

(** ** Class [PptxParser] *)

Section PptxParser.

(** The prototype of the objects in a parsed tree, see [objectToString]. *)
Variable ordinaryPrototype : bool.

(** The [message] the engine gives a [TypeError]. *)
Variable typeErrorMessage : TypeErrorKind -> string.

(** [unzipper.Open.file]: the entries of the archive at a path. *)
Variable openFile : string -> Result (list File.t).

(** [xml2js.parseString], with the default options. *)
Variable parseString : string -> Result JSValue.

Definition message (e : Exn) : string :=
  match e with
  | Error m => m
  | TypeError k => typeErrorMessage k
  end.

(** [getFileContent]: the string of each chunk is appended to [data];
    [end] resolves with [data], [error] rejects. *)
Definition getFileContent (file : File.t) : Result string :=
  match File.failure file with
  | None =>
      Ok (fold_left (fun data chunk => data ++ chunk) (File.chunks file) "")
  | Some e => Throw e
  end.

Definition parseXmlContent (xmlContent : string) : Result JSValue :=
  parseString xmlContent.

(** The callbacks of [filter] and [map] in [getSlideRelations]. *)
Definition slideTypeCallback (rel : JSValue) : Result bool :=
  attrs <- get rel "$" ;;
  type <- get attrs "Type" ;;
  callEndsWith type "/slide".

Definition relationCallback (rel : JSValue) : Result SlideRelation.t :=
  attrs <- get rel "$" ;;
  i <- get attrs "Id" ;;
  attrs' <- get rel "$" ;;
  t <- get attrs' "Target" ;;
  Ok (SlideRelation.mk i t).

Definition getSlideRelations (relationshipsData : JSValue)
  : Result (list SlideRelation.t) :=
  root <- get relationshipsData "Relationships" ;;
  relationships <- get root "Relationship" ;;
  matching <- arrayFilter relationships slideTypeCallback ;;
  mapM relationCallback matching.

(** The callback of [slideRelations.map] in [parse]: [null] ([None]) when
    no entry has the path [`ppt/${relation.target}`]. *)
Definition slideOf (files : list File.t) (relation : SlideRelation.t)
  : Result (option ParsedSlide.t) :=
  slideFile <- findM (fun f =>
    t <- toStringJS ordinaryPrototype (SlideRelation.target relation) ;;
    Ok (File.path f =? "ppt/" ++ t)%string) files ;;
  match slideFile with
  | None => Ok None
  | Some slideFile =>
      slideContent <- getFileContent slideFile ;;
      parsed <- parseXmlContent slideContent ;;
      Ok (Some (ParsedSlide.mk (SlideRelation.id relation)
                  (File.path slideFile) slideContent parsed))
  end.

(** The [try] block of [parse].  [Promise.all] fulfils with the results in
    the order of [slideRelations]; when several slides fail, the rejection
    that arrives first wins, and the model takes the first in relation
    order. *)
Definition parseTry (filePath : string) : Result ParsedPresentation.t :=
  files <- openFile filePath ;;
  let presentationXml :=
    find (fun d => (File.path d =? "ppt/presentation.xml")%string) files in
  let slideRelationsXml :=
    find (fun d => (File.path d =? "ppt/_rels/presentation.xml.rels")%string)
      files in
  match presentationXml, slideRelationsXml with
  | Some presentationXml, Some slideRelationsXml =>
      presentationContent <- getFileContent presentationXml ;;
      relationshipsContent <- getFileContent slideRelationsXml ;;
      presentationData <- parseXmlContent presentationContent ;;
      relationshipsData <- parseXmlContent relationshipsContent ;;
      slideRelations <- getSlideRelations relationshipsData ;;
      slides <- mapM (slideOf files) slideRelations ;;
      Ok (ParsedPresentation.mk
            (Part.mk "ppt/presentation.xml" presentationContent
               presentationData)
            (Part.mk "ppt/_rels/presentation.xml.rels" relationshipsContent
               relationshipsData)
            (dropNull slides))
  | _, _ => Throw (Error "Invalid PPTX file structure")
  end.

Definition parse (filePath : string) : Result ParsedPresentation.t :=
  match parseTry filePath with
  | Ok result => Ok result
  | Throw error => Throw (Error ("Failed to parse PPTX: " ++ message error))
  end.

(** The callbacks of [extractTextFromSlide], innermost first.  Each takes
    the array it pushes to and returns it updated. *)

Definition runCallback (run : JSValue) (paragraphText : list JSValue)
  : Result (list JSValue) :=
  t <- get run "a:t" ;;
  if truthy t then
    t' <- get run "a:t" ;;
    text <- get0 t' ;;
    Ok (paragraphText ++ [text])%list
  else Ok paragraphText.

(** The body of the paragraph callback up to its last [if]: the array
    [paragraphText] it has built by then. *)
Definition paragraphTokens (paragraph : JSValue) : Result (list JSValue) :=
  let paragraphText : list JSValue := [] in
  r <- get paragraph "a:r" ;;
  paragraphText <-
    (if truthy r then
       r' <- get paragraph "a:r" ;; forEach r' runCallback paragraphText
     else Ok paragraphText) ;;
  br <- get paragraph "a:br" ;;
  let paragraphText :=
    if truthy br then (paragraphText ++ [JString newline])%list
    else paragraphText in
  isBreak <-
    (if (length paragraphText =? 0)%nat then Ok true
     else e <- get paragraph "a:endParaRPr" ;; Ok (truthy e)) ;;
  Ok (if isBreak : bool then (paragraphText ++ [JString newline])%list
      else paragraphText).

Definition paragraphCallback (paragraph : JSValue)
  (paragraphTexts : list string) : Result (list string) :=
  paragraphText <- paragraphTokens paragraph ;;
  if (0 <? length paragraphText)%nat then
    s <- join ordinaryPrototype paragraphText "" ;;
    Ok (paragraphTexts ++ [s])%list
  else Ok paragraphTexts.

Definition textBodyCallback (textBody : JSValue) (texts : list string)
  : Result (list string) :=
  p <- get textBody "a:p" ;;
  if truthy p then
    let paragraphTexts : list string := [] in
    p' <- get textBody "a:p" ;;
    paragraphTexts <- forEach p' paragraphCallback paragraphTexts ;;
    if (0 <? length paragraphTexts)%nat then
      Ok (texts ++ [joinStrings paragraphTexts newline])%list
    else Ok texts
  else Ok texts.

Definition shapeCallback (shape : JSValue) (texts : list string)
  : Result (list string) :=
  b <- get shape "p:txBody" ;;
  if truthy b then
    b' <- get shape "p:txBody" ;; forEach b' textBodyCallback texts
  else Ok texts.

(** [slideData["p:sld"]["p:cSld"]] *)
Definition cSldOf (slideData : JSValue) : Result JSValue :=
  sld <- get slideData "p:sld" ;; get sld "p:cSld".

(** [slideData["p:sld"]["p:cSld"][0]["p:spTree"]] *)
Definition spTreeOf (slideData : JSValue) : Result JSValue :=
  cSld <- cSldOf slideData ;;
  c <- get0 cSld ;;
  get c "p:spTree".

Definition extractTextFromSlide (slideData : JSValue) : Result (list string) :=
  let texts : list string := [] in
  sld <- get slideData "p:sld" ;;
  found <-
    (if truthy sld then
       cSld <- cSldOf slideData ;;
       if truthy cSld then spTreeOf slideData else Ok cSld
     else Ok sld) ;;
  if truthy found then
    trees <- spTreeOf slideData ;;
    spTree <- get0 trees ;;
    sp <- get spTree "p:sp" ;;
    if truthy sp then
      sp' <- get spTree "p:sp" ;; forEach sp' shapeCallback texts
    else Ok texts
  else Ok texts.

(** The interface [SlideTextContent]: a [ParsedSlide] and its [text]. *)
Definition SlideTextContent : Type := (ParsedSlide.t * list string)%type.

Definition extractText (filePath : string) : Result (list SlideTextContent) :=
  parsed <- parse filePath ;;
  mapM (fun slide =>
    slideText <- extractTextFromSlide (ParsedSlide.parsed slide) ;;
    Ok (slide, slideText)) (ParsedPresentation.slides parsed).

End PptxParser.

(** ** Vocabulary of the properties *)

(** [suffix] ends [s]. *)
Definition isSuffix (suffix s : string) : Prop :=
  exists prefix : string, s = prefix ++ suffix.

(** The relationship records of a relationships document, when the
    document has a root with a record list. *)
Definition relationshipList (relationshipsData : JSValue)
  : option (list JSValue) :=
  if nullish relationshipsData then None
  else if nullish (prop relationshipsData "Relationships") then None
  else match prop (prop relationshipsData "Relationships") "Relationship" with
       | JArray records => Some records
       | _ => None
       end.

(** The attribute [name] of a record. *)
Definition attribute (rel : JSValue) (name : string) : JSValue :=
  prop (prop rel "$") name.

(** A record that carries attributes, [Type] among them, as a string. *)
Definition typedRecord (rel : JSValue) : bool :=
  negb (nullish rel) && negb (nullish (prop rel "$")) &&
  match attribute rel "Type" with
  | JString _ => true
  | _ => false
  end.

(** A slide relation: the [Type] attribute ends with [/slide]. *)
Definition isSlideRecord (rel : JSValue) : Prop :=
  exists type : string,
    attribute rel "Type" = JString type /\ isSuffix "/slide" type.

Definition slideTyped (rel : JSValue) : bool :=
  match attribute rel "Type" with
  | JString type => endsWith type "/slide"
  | _ => false
  end.

Definition relationOf (rel : JSValue) : SlideRelation.t :=
  SlideRelation.mk (attribute rel "Id") (attribute rel "Target").

(** The archive has an entry at the path. *)
Definition hasEntry (files : list File.t) (path : string) : Prop :=
  In path (map File.path files).

(** The target of the relation resolves to an entry of the archive. *)
Definition resolves (ordinaryPrototype : bool) (files : list File.t)
  (relation : SlideRelation.t) : bool :=
  match toStringJS ordinaryPrototype (SlideRelation.target relation) with
  | Ok t => existsb (fun f => (File.path f =? "ppt/" ++ t)%string) files
  | Throw _ => false
  end.

(** [slide] is the parsed slide of [relation]: it has the identifier of
    the relation and the path, the text and the tree of the entry at
    [ppt/<target>]. *)
Definition slideOfRelation (ordinaryPrototype : bool)
  (parseString : string -> Result JSValue) (files : list File.t)
  (slide : ParsedSlide.t) (relation : SlideRelation.t) : Prop :=
  ParsedSlide.id slide = SlideRelation.id relation /\
  exists (t : string) (f : File.t),
    toStringJS ordinaryPrototype (SlideRelation.target relation) = Ok t /\
    In f files /\
    File.path f = "ppt/" ++ t /\
    ParsedSlide.path slide = File.path f /\
    getFileContent f = Ok (ParsedSlide.xml slide) /\
    parseString (ParsedSlide.xml slide) = Ok (ParsedSlide.parsed slide).

(** The effect of the callback on the array it is given is to append what
    it appends to the empty array. *)
Definition Framed {A : Type} (callback : JSValue -> list A -> Result (list A))
  : Prop :=
  forall x acc, callback x acc = (o <- callback x [] ;; Ok (acc ++ o)%list).

(** [outs] lists, node by node, what the callback pushes. *)
Definition Outputs {A : Type} (callback : JSValue -> list A -> Result (list A))
  (items : list JSValue) (outs : list (list A)) : Prop :=
  Forall2 (fun x o => callback x [] = Ok o) items outs.

(** What a run contributes to its paragraph: the first value of its
    text-content child, when it has one. *)
Definition tokensOfRun (run : JSValue) : list JSValue :=
  if truthy (prop run "a:t") then [first (prop run "a:t")] else [].

(** The tokens of a paragraph, read off its children: what its runs
    contribute, in order; then a newline if it has a break marker; then a
    newline if there is no token so far or if it has an end-of-paragraph
    marker. *)
Definition tokensOfParagraph (paragraph : JSValue) : list JSValue :=
  let runs := match prop paragraph "a:r" with JArray l => l | _ => [] end in
  let collected := flat_map tokensOfRun runs in
  let break :=
    if truthy (prop paragraph "a:br") then [JString newline] else [] in
  let boundary :=
    if match (collected ++ break)%list with
       | [] => true
       | _ :: _ => truthy (prop paragraph "a:endParaRPr")
       end
    then [JString newline] else [] in
  (collected ++ break ++ boundary)%list.

(** The shape nodes of a slide tree, in document order. *)
Definition shapes (slideData : JSValue) : list JSValue :=
  let cSld := prop (prop slideData "p:sld") "p:cSld" in
  let spTree := first (prop (first cSld) "p:spTree") in
  match prop spTree "p:sp" with
  | JArray l => l
  | _ => []
  end.

(** The text bodies of a shape. *)
Definition textBodies (shape : JSValue) : list JSValue :=
  match prop shape "p:txBody" with
  | JArray l => l
  | _ => []
  end.

(** The text body contains at least one paragraph node. *)
Definition hasParagraph (textBody : JSValue) : bool :=
  match prop textBody "a:p" with
  | JArray (_ :: _) => true
  | _ => false
  end.

(** A child collection as the XML parser builds it: absent, or an array
    of nodes that satisfy [wf]. *)
Definition childList (wf : JSValue -> bool) (v : JSValue) : bool :=
  if truthy v then
    match v with
    | JArray l => forallb wf l
    | _ => false
    end
  else true.

(** A run: a node whose text-content child, if any, holds a text leaf. *)
Definition wfRun (run : JSValue) : bool :=
  negb (nullish run) &&
  (if truthy (prop run "a:t") then
     match first (prop run "a:t") with
     | JString _ => true
     | _ => false
     end
   else true).

Definition wfParagraph (paragraph : JSValue) : bool :=
  negb (nullish paragraph) && childList wfRun (prop paragraph "a:r").

Definition wfTextBody (textBody : JSValue) : bool :=
  negb (nullish textBody) && childList wfParagraph (prop textBody "a:p").

Definition wfShape (shape : JSValue) : bool :=
  negb (nullish shape) && childList wfTextBody (prop shape "p:txBody").

(** A slide tree in which every level that is present has the shape the
    extractor reads: a first content-tree container, a first shape tree,
    a list of shapes. *)
Definition wfSlide (slideData : JSValue) : bool :=
  negb (nullish slideData) &&
  (let sld := prop slideData "p:sld" in
   if truthy sld then
     let cSld := prop sld "p:cSld" in
     if truthy cSld then
       negb (nullish (first cSld)) &&
       (let trees := prop (first cSld) "p:spTree" in
        if truthy trees then
          negb (nullish (first trees)) &&
          childList wfShape (prop (first trees) "p:sp")
        else true)
     else true
   else true).

(** ** Sample trees and a sample archive *)

(** [<a:r><a:t>text</a:t></a:r>] *)
Definition textRun (text : string) : JSValue :=
  JObject [("a:t", JArray [JString text])].

(** [<a:p>] with the given runs. *)
Definition paragraphOf (runs : list JSValue) : JSValue :=
  JObject [("a:r", JArray runs)].

(** [<a:p>] with the given runs and an [<a:br/>]. *)
Definition paragraphWithBreak (runs : list JSValue) : JSValue :=
  JObject [("a:r", JArray runs); ("a:br", JArray [JString ""])].

(** [<a:p/>], for which the XML parser gives the empty string. *)
Definition emptyParagraph : JSValue := JString "".

Definition textBodyOf (paragraphs : list JSValue) : JSValue :=
  JObject [("a:bodyPr", JArray [JString ""]); ("a:p", JArray paragraphs)].

Definition shapeOf (bodies : list JSValue) : JSValue :=
  JObject [("p:nvSpPr", JArray [JString ""]); ("p:txBody", JArray bodies)].

(** A shape without text body. *)
Definition bareShape : JSValue :=
  JObject [("p:nvSpPr", JArray [JString ""])].

(** A text body without paragraph: [<p:txBody><a:bodyPr/></p:txBody>]. *)
Definition bodyWithoutParagraph : JSValue :=
  JObject [("a:bodyPr", JArray [JString ""])].

Definition slideTree (shapeNodes : list JSValue) : JSValue :=
  JObject [("p:sld",
    JObject [("p:cSld",
      JArray [JObject [("p:spTree",
        JArray [JObject [("p:sp", JArray shapeNodes)]])]])])].

(** A slide whose root has a content-tree container list without element. *)
Definition slideWithoutContainer : JSValue :=
  JObject [("p:sld", JObject [("p:cSld", JArray [])])].

(** A run whose text-content child holds an element, [<toString/>],
    instead of a text leaf. *)
Definition elementRun : JSValue :=
  JObject [("a:t", JArray [JObject [("toString", JArray [JString ""])]])].

Definition relationship (id type target : string) : JSValue :=
  JObject [("$", JObject [("Id", JString id); ("Type", JString type);
                          ("Target", JString target)])].

Definition officeDocument : string :=
  "http://schemas.openxmlformats.org/officeDocument/2006/relationships".

Definition sampleRecords : list JSValue :=
  [relationship "rId1" (officeDocument ++ "/slideMaster")
     "slideMasters/slideMaster1.xml";
   relationship "rId2" (officeDocument ++ "/slide") "slides/slide1.xml";
   relationship "rId3" (officeDocument ++ "/slide") "slides/slide2.xml";
   relationship "rId4" (officeDocument ++ "/slideLayout")
     "slideLayouts/slideLayout1.xml"].

Definition sampleRelationships : JSValue :=
  JObject [("Relationships",
            JObject [("Relationship", JArray sampleRecords)])].

Definition samplePresentation : JSValue :=
  JObject [("p:presentation", JObject [("p:sldIdLst", JArray [JString ""])])].

Definition sampleSlide : JSValue :=
  slideTree [shapeOf [textBodyOf [paragraphOf [textRun "Hello"]]]; bareShape].

(** The texts of three parts; the sample parser knows their trees. *)
Definition presentationText : string :=
  "<p:presentation><p:sldIdLst/></p:presentation>".

Definition relationshipText (id type target : string) : string :=
  "<Relationship Id='" ++ id ++ "' Type='" ++ type ++ "' Target='" ++ target
  ++ "'/>".

Definition relationshipsHead : string :=
  "<Relationships>"
  ++ relationshipText "rId1" (officeDocument ++ "/slideMaster")
       "slideMasters/slideMaster1.xml"
  ++ relationshipText "rId2" (officeDocument ++ "/slide") "slides/slide1.xml".

Definition relationshipsTail : string :=
  relationshipText "rId3" (officeDocument ++ "/slide") "slides/slide2.xml"
  ++ relationshipText "rId4" (officeDocument ++ "/slideLayout")
       "slideLayouts/slideLayout1.xml"
  ++ "</Relationships>".

Definition relationshipsText : string := relationshipsHead ++ relationshipsTail.

Definition slideText : string :=
  "<p:sld><p:cSld><p:spTree><p:sp><p:nvSpPr/><p:txBody><a:bodyPr/><a:p><a:r>"
  ++ "<a:t>Hello</a:t></a:r></a:p></p:txBody></p:sp><p:sp><p:nvSpPr/></p:sp>"
  ++ "</p:spTree></p:cSld></p:sld>".

Definition sampleParseString (xmlContent : string) : Result JSValue :=
  if (xmlContent =? presentationText)%string then Ok samplePresentation
  else if (xmlContent =? relationshipsText)%string then Ok sampleRelationships
  else if (xmlContent =? slideText)%string then Ok sampleSlide
  else Throw (Error "Unexpected input").

(** An archive in which the slide of [rId2], [slides/slide1.xml], is
    missing and the slide of [rId3] is present. *)
Definition sampleFiles : list File.t :=
  [File.mk "[Content_Types].xml" [""] None;
   File.mk "ppt/presentation.xml" [presentationText] None;
   File.mk "ppt/_rels/presentation.xml.rels"
     [relationshipsHead; relationshipsTail] None;
   File.mk "ppt/slides/slide2.xml" [slideText] None].

(** An archive without the relationships part. *)
Definition filesWithoutRelationships : list File.t :=
  [File.mk "[Content_Types].xml" [""] None;
   File.mk "ppt/presentation.xml" [presentationText] None].

Definition sampleOpenFile (files : list File.t) (filePath : string)
  : Result (list File.t) :=
  if (filePath =? "presentation.pptx")%string then Ok files
  else Throw (Error "ENOENT: no such file or directory").

Definition sampleTypeErrorMessage (kind : TypeErrorKind) : string :=
  match kind with
  | CannotRead key =>
      "Cannot read properties of undefined (reading '" ++ key ++ "')"
  | NotAFunction name => name ++ " is not a function"
  | NoPrimitive => "Cannot convert object to primitive value"
  end.

(** What [parse] returns on the sample archive. *)
Definition sampleResult : ParsedPresentation.t :=
  ParsedPresentation.mk
    (Part.mk "ppt/presentation.xml" presentationText samplePresentation)
    (Part.mk "ppt/_rels/presentation.xml.rels" relationshipsText
       sampleRelationships)
    [ParsedSlide.mk (JString "rId3") "ppt/slides/slide2.xml" slideText
       sampleSlide].

(** A text body with the paragraph [Hello] and an empty paragraph. *)
Definition sampleTextBody : JSValue :=
  textBodyOf [paragraphOf [textRun "Hello"]; emptyParagraph].

(** A slide whose only shape has a text body without paragraph. *)
Definition slideWithEmptyBody : JSValue :=
  slideTree [shapeOf [bodyWithoutParagraph]].

(** A slide with a shape of two text bodies and a shape without any. *)
Definition slideWithTwoBodies : JSValue :=
  slideTree [shapeOf [textBodyOf [paragraphOf [textRun "One"]];
                      textBodyOf [paragraphOf [textRun "Two"]]];
             bareShape].

(** A slide whose only run holds an element instead of a text leaf. *)
Definition slideWithElementRun : JSValue :=
  slideTree [shapeOf [textBodyOf [paragraphOf [elementRun]]]].

(** ** Further sample trees and archives *)




(** [<Relationships/>]: the root is the empty string, without record. *)
Definition emptyRelationshipsText : string := "<Relationships/>".

Definition emptyRelationships : JSValue :=
  JObject [("Relationships", JString "")].

Definition elementRunSlideText : string :=
  "<p:sld><p:cSld><p:spTree><p:sp><p:nvSpPr/><p:txBody><a:bodyPr/><a:p><a:r>"
  ++ "<a:t><toString/></a:t></a:r></a:p></p:txBody></p:sp></p:spTree>"
  ++ "</p:cSld></p:sld>".

(** The sample parser, knowing two more texts. *)
Definition extendedParseString (xmlContent : string) : Result JSValue :=
  if (xmlContent =? emptyRelationshipsText)%string then Ok emptyRelationships
  else if (xmlContent =? elementRunSlideText)%string
       then Ok slideWithElementRun
       else sampleParseString xmlContent.

(** The sample archive with a first slide whose run holds an element. *)
Definition filesWithElementRun : list File.t :=
  [File.mk "ppt/presentation.xml" [presentationText] None;
   File.mk "ppt/_rels/presentation.xml.rels"
     [relationshipsHead; relationshipsTail] None;
   File.mk "ppt/slides/slide1.xml" [elementRunSlideText] None;
   File.mk "ppt/slides/slide2.xml" [slideText] None].

(** The sample archive, the stream of the slide failing after a chunk. *)
Definition filesWithUnreadableSlide : list File.t :=
  [File.mk "ppt/presentation.xml" [presentationText] None;
   File.mk "ppt/_rels/presentation.xml.rels"
     [relationshipsHead; relationshipsTail] None;
   File.mk "ppt/slides/slide2.xml" ["<p:sld>"]
     (Some (Error "unexpected end of file"))].

(** An archive whose relationships part has no record. *)
Definition filesWithEmptyRelationships : list File.t :=
  [File.mk "ppt/presentation.xml" [presentationText] None;
   File.mk "ppt/_rels/presentation.xml.rels" [emptyRelationshipsText] None].

(** A slide record without [Id] and without [Target]. *)
Definition recordWithoutTarget : JSValue :=
  JObject [("$", JObject [("Type", JString (officeDocument ++ "/slide"))])].

(** [<a:r><a:t xml:space='preserve'>text</a:t></a:r>]: the text-content
    child is an element with an attribute, not a text leaf. *)
Definition attributedRun (text : string) : JSValue :=
  JObject [("a:t",
            JArray [JObject [("_", JString text);
                             ("$", JObject [("xml:space",
                                             JString "preserve")])]])].

(** * Properties *)

(** ** Strings *)

Lemma string_length_app (s t : string) :
  String.length (s ++ t) = String.length s + String.length t.
Proof.
  induction s as [|c s IH]; simpl; [reflexivity | now rewrite IH].
Qed.

Lemma substring_all (t : string) : substring 0 (String.length t) t = t.
Proof.
  induction t as [|c t IH]; simpl; [reflexivity | now rewrite IH].
Qed.

Lemma substring_after (p t : string) :
  substring (String.length p) (String.length t) (p ++ t) = t.
Proof.
  induction p as [|c p IH]; simpl; [apply substring_all | exact IH].
Qed.

Lemma substring_split (s : string) :
  forall n, n <= String.length s ->
    s = substring 0 n s ++ substring n (String.length s - n) s.
Proof.
  induction s as [|c s IH]; intros [|n] Hn; simpl in *.
  - reflexivity.
  - lia.
  - now rewrite substring_all.
  - rewrite (IH n) at 1 by lia.
    (* the head of [s] is skipped on both sides *)
    destruct s as [|d s]; simpl.
    + destruct n; [reflexivity | simpl in Hn; lia].
    + reflexivity.
Qed.

Lemma endsWith_isSuffix (s suffix : string) :
  endsWith s suffix = true <-> isSuffix suffix s.
Proof.
  unfold endsWith, isSuffix. split.
  - destruct (Nat.leb_spec (String.length suffix) (String.length s)) as [Hle|];
      [|discriminate].
    intros H. apply String.eqb_eq in H.
    exists (substring 0 (String.length s - String.length suffix) s).
    rewrite <- H at 2.
    rewrite (substring_split s (String.length s - String.length suffix)) at 1
      by lia.
    do 2 f_equal. lia.
  - intros [p ->]. rewrite string_length_app.
    replace (String.length suffix <=? String.length p + String.length suffix)%nat
      with true by (symmetry; apply Nat.leb_le; lia).
    replace (String.length p + String.length suffix - String.length suffix)
      with (String.length p) by lia.
    rewrite substring_after. apply String.eqb_refl.
Qed.

Lemma substring_skip (p t : string) (k m : nat) :
  substring (String.length p + k) m (p ++ t) = substring k m t.
Proof.
  induction p as [|c p IH]; simpl; [reflexivity | exact IH].
Qed.

(** Only the tail of a string decides [endsWith]. *)
Lemma endsWith_tail (p t suffix : string) :
  String.length suffix <= String.length t ->
  endsWith (p ++ t) suffix = endsWith t suffix.
Proof.
  intros Hle. unfold endsWith. rewrite string_length_app.
  replace (String.length suffix <=? String.length p + String.length t)%nat
    with true by (symmetry; apply Nat.leb_le; lia).
  replace (String.length suffix <=? String.length t)%nat
    with true by (symmetry; apply Nat.leb_le; lia).
  replace (String.length p + String.length t - String.length suffix)
    with (String.length p + (String.length t - String.length suffix)) by lia.
  now rewrite substring_skip.
Qed.

(** ** Property reads *)

Lemma get_ok (v : JSValue) (k : string) :
  nullish v = false -> get v k = Ok (prop v k).
Proof. unfold get. now intros ->. Qed.

Lemma get0_ok (v : JSValue) :
  nullish v = false -> get0 v = Ok (first v).
Proof. unfold get0. now intros ->. Qed.

Lemma get_inv (v r : JSValue) (k : string) :
  get v k = Ok r -> nullish v = false /\ r = prop v k.
Proof.
  unfold get. destruct (nullish v); [discriminate|].
  intros H. injection H as <-. now split.
Qed.

Lemma get0_inv (v r : JSValue) :
  get0 v = Ok r -> nullish v = false /\ r = first v.
Proof.
  unfold get0. destruct (nullish v); [discriminate|].
  intros H. injection H as <-. now split.
Qed.

Lemma truthy_not_nullish (v : JSValue) : truthy v = true -> nullish v = false.
Proof. destruct v; simpl; congruence. Qed.

Lemma array_not_nullish (v : JSValue) (k : string) (l : list JSValue) :
  prop v k = JArray l -> nullish v = false.
Proof. destruct v; simpl; congruence. Qed.

Lemma bind_ok_inv {A B : Type} (r : Result A) (k : A -> Result B) (b : B) :
  bind r k = Ok b -> exists a, r = Ok a /\ k a = Ok b.
Proof.
  destruct r as [a|e]; simpl; [|discriminate]. intros H. now exists a.
Qed.

(** ** Relationship records *)

Lemma slideTypeCallback_ok (rel : JSValue) (b : bool) :
  slideTypeCallback rel = Ok b <->
  typedRecord rel = true /\ b = slideTyped rel.
Proof.
  unfold slideTypeCallback, typedRecord, slideTyped, attribute, get.
  destruct (nullish rel); simpl; [split; [discriminate | intros [? _]; discriminate]|].
  destruct (nullish (prop rel "$")); simpl;
    [split; [discriminate | intros [? _]; discriminate]|].
  destruct (prop (prop rel "$") "Type"); simpl;
    try (split; [discriminate | intros [? _]; discriminate]).
  split.
  - intros H. injection H as <-. now split.
  - now intros [_ ->].
Qed.

Lemma filterM_slideType (records matching : list JSValue) :
  filterM slideTypeCallback records = Ok matching <->
  forallb typedRecord records = true /\ matching = filter slideTyped records.
Proof.
  revert matching. induction records as [|rel records IH]; intros matching; simpl.
  - split.
    + intros H. injection H as <-. now split.
    + now intros [_ ->].
  - split.
    + intros H.
      apply bind_ok_inv in H as (b & Hb & H).
      apply bind_ok_inv in H as (r & Hr & H).
      apply slideTypeCallback_ok in Hb as [Ht ->].
      apply IH in Hr as [Hall ->].
      injection H as <-. rewrite Ht, Hall. now split.
    + intros [Hall ->]. apply andb_true_iff in Hall as [Ht Hall].
      assert (Hb : slideTypeCallback rel = Ok (slideTyped rel))
        by now apply slideTypeCallback_ok.
      assert (Hr : filterM slideTypeCallback records
                   = Ok (filter slideTyped records)) by now apply IH.
      now rewrite Hb, Hr.
Qed.

Lemma relationCallback_typed (rel : JSValue) :
  typedRecord rel = true -> relationCallback rel = Ok (relationOf rel).
Proof.
  unfold typedRecord, relationCallback, relationOf, attribute, get.
  destruct (nullish rel); simpl; [discriminate|].
  destruct (nullish (prop rel "$")); simpl; [discriminate|]. reflexivity.
Qed.

Lemma mapM_relationCallback (records : list JSValue) :
  forallb typedRecord records = true ->
  mapM relationCallback records = Ok (map relationOf records).
Proof.
  induction records as [|rel records IH]; simpl; [reflexivity|].
  intros H. apply andb_true_iff in H as [Ht Hall].
  now rewrite (relationCallback_typed rel Ht), (IH Hall).
Qed.

Lemma forallb_filter {A : Type} (p q : A -> bool) (l : list A) :
  forallb p l = true -> forallb p (filter q l) = true.
Proof.
  induction l as [|x l IH]; simpl; [reflexivity|].
  intros H. apply andb_true_iff in H as [Hx Hl].
  destruct (q x); simpl; [rewrite Hx|]; auto.
Qed.

(** [getSlideRelations] returns exactly on the documents with a record
    list of typed records, and then with the slide-typed ones. *)
Lemma getSlideRelations_ok (data : JSValue) (rels : list SlideRelation.t) :
  getSlideRelations data = Ok rels <->
  exists records,
    relationshipList data = Some records /\
    forallb typedRecord records = true /\
    rels = map relationOf (filter slideTyped records).
Proof.
  unfold getSlideRelations, relationshipList, get. split.
  - destruct (nullish data); simpl; [discriminate|].
    destruct (nullish (prop data "Relationships")); simpl; [discriminate|].
    destruct (prop (prop data "Relationships") "Relationship") as [| |s|records|f];
      simpl; try discriminate.
    intros H. apply bind_ok_inv in H as (matching & Hm & H).
    apply filterM_slideType in Hm as [Hall ->].
    rewrite mapM_relationCallback in H by now apply forallb_filter.
    injection H as <-. now exists records.
  - intros (records & Hl & Hall & ->).
    destruct (nullish data); simpl; [discriminate|].
    destruct (nullish (prop data "Relationships")); simpl; [discriminate|].
    destruct (prop (prop data "Relationships") "Relationship") as [| |s|l|f];
      simpl; try discriminate.
    injection Hl as ->.
    assert (Hm : filterM slideTypeCallback records
                 = Ok (filter slideTyped records))
      by now apply filterM_slideType.
    rewrite Hm. simpl.
    apply mapM_relationCallback. now apply forallb_filter.
Qed.

Lemma slideTyped_isSlideRecord (rel : JSValue) :
  slideTyped rel = true <-> isSlideRecord rel.
Proof.
  unfold slideTyped, isSlideRecord. split.
  - destruct (attribute rel "Type") as [| |type|l|f]; try discriminate.
    intros H. exists type. split; [reflexivity | now apply endsWith_isSuffix].
  - intros (type & -> & H). now apply endsWith_isSuffix.
Qed.

(** C2. On a relationships document with a record list, [getSlideRelations]
    returns if and only if every record carries a string [Type] attribute,
    and it then returns the relations of exactly the records whose [Type]
    ends with the suffix [/slide], in document order; a record whose
    [Type] ends with [/slideLayout] or [/slideMaster] is never kept. *)
Theorem getSlideRelations_keeps_slide_suffix :
  forall (data : JSValue) (records : list JSValue),
    relationshipList data = Some records ->
    (forall rels,
        getSlideRelations data = Ok rels <->
        forallb typedRecord records = true /\
        rels = map relationOf (filter slideTyped records)) /\
    (forall rel, slideTyped rel = true <-> isSlideRecord rel) /\
    (forall rel prefix,
        attribute rel "Type" = JString (prefix ++ "/slideLayout") \/
        attribute rel "Type" = JString (prefix ++ "/slideMaster") ->
        slideTyped rel = false /\
        ~ In rel (filter slideTyped records)).
Proof.
  intros data records Hl. split; [|split].
  - intros rels. rewrite getSlideRelations_ok. split.
    + intros (records' & Hl' & Hall & ->).
      rewrite Hl in Hl'. injection Hl' as <-. now split.
    + intros [Hall ->]. now exists records.
  - apply slideTyped_isSlideRecord.
  - intros rel prefix H.
    assert (Hf : slideTyped rel = false).
    { unfold slideTyped.
      destruct H as [-> | ->]; now rewrite endsWith_tail by (simpl; lia). }
    split; [exact Hf|].
    intros Hin. apply filter_In in Hin as [_ Ht]. congruence.
Qed.

(** ** Callbacks that push to an array *)

Section Pushing.

Context {A : Type}.
Variable callback : JSValue -> list A -> Result (list A).
Hypothesis framed : Framed callback.

Lemma each_framed (items : list JSValue) :
  forall acc,
    each callback items acc
    = (o <- each callback items [] ;; Ok (acc ++ o)%list).
Proof.
  induction items as [|x items IH]; intros acc; simpl.
  - now rewrite app_nil_r.
  - rewrite (framed x acc).
    destruct (callback x []) as [o|e]; simpl; [|reflexivity].
    rewrite (IH (acc ++ o)%list), (IH o).
    destruct (each callback items []) as [o'|e]; simpl; [|reflexivity].
    now rewrite app_assoc.
Qed.

Lemma each_outputs (items : list JSValue) (outs : list (list A)) :
  Outputs callback items outs ->
  forall acc, each callback items acc = Ok (acc ++ concat outs)%list.
Proof.
  induction 1 as [|x o items outs Hx _ IH]; intros acc; simpl.
  - now rewrite app_nil_r.
  - rewrite (framed x acc), Hx. simpl.
    now rewrite IH, app_assoc.
Qed.

Lemma each_ok_inv (items : list JSValue) :
  forall acc r,
    each callback items acc = Ok r ->
    exists outs, Outputs callback items outs /\ r = (acc ++ concat outs)%list.
Proof.
  induction items as [|x items IH]; intros acc r; simpl.
  - intros H. injection H as <-. exists []. split; [constructor|].
    simpl. now rewrite app_nil_r.
  - rewrite (framed x acc).
    destruct (callback x []) as [o|e] eqn:Hx; simpl; [|discriminate].
    intros H. apply IH in H as (outs & Houts & ->).
    exists (o :: outs). split; [now constructor|].
    simpl. now rewrite app_assoc.
Qed.

Lemma forEach_framed (v : JSValue) :
  forall acc,
    forEach v callback acc = (o <- forEach v callback [] ;; Ok (acc ++ o)%list).
Proof.
  intros acc. destruct v; simpl; try reflexivity. apply each_framed.
Qed.

Lemma each_total (items : list JSValue) :
  (forall x, In x items -> exists o, callback x [] = Ok o) ->
  exists outs, Outputs callback items outs.
Proof.
  induction items as [|x items IH]; intros H.
  - exists []. constructor.
  - destruct (H x (or_introl eq_refl)) as [o Ho].
    destruct IH as [outs Houts]; [intros y Hy; apply H; now right|].
    exists (o :: outs). now constructor.
Qed.

End Pushing.

Lemma childList_array (wf : JSValue -> bool) (v : JSValue) :
  childList wf v = true -> truthy v = true ->
  exists l, v = JArray l /\ forallb wf l = true.
Proof.
  unfold childList. intros H Ht. rewrite Ht in H.
  destruct v; try discriminate. now eexists.
Qed.

Lemma joinWith_strings (b : bool) (sep : string) (l : list string) :
  join b (map JString l) sep = Ok (joinStrings l sep).
Proof.
  unfold join. induction l as [|s l IH]; simpl; [reflexivity|].
  destruct l as [|s' l]; simpl in *; [reflexivity|].
  now rewrite IH.
Qed.

(** ** The callbacks of [extractTextFromSlide] *)

Section Callbacks.

Variable proto : bool.

Lemma runCallback_framed : Framed runCallback.
Proof.
  intros run acc. unfold runCallback, get.
  destruct (nullish run); simpl; [reflexivity|].
  destruct (truthy (prop run "a:t")) eqn:Ht; simpl.
  - now rewrite (get0_ok _ (truthy_not_nullish _ Ht)).
  - now rewrite app_nil_r.
Qed.

Lemma runCallback_wf (run : JSValue) :
  wfRun run = true -> exists l, runCallback run [] = Ok (map JString l).
Proof.
  unfold wfRun, runCallback, get. intros H.
  apply andb_true_iff in H as [Hn H]. apply negb_true_iff in Hn.
  rewrite Hn. simpl.
  destruct (truthy (prop run "a:t")) eqn:Ht; simpl.
  - rewrite (get0_ok _ (truthy_not_nullish _ Ht)). simpl.
    destruct (first (prop run "a:t")) as [| |s|l|f]; try discriminate.
    now exists [s].
  - now exists [].
Qed.

Lemma runs_wf (runs : list JSValue) :
  forallb wfRun runs = true ->
  exists l, each runCallback runs [] = Ok (map JString l).
Proof.
  induction runs as [|run runs IH]; simpl; intros H.
  - now exists [].
  - apply andb_true_iff in H as [Hr Hs].
    destruct (runCallback_wf run Hr) as [l1 H1].
    destruct (IH Hs) as [l2 H2].
    exists (l1 ++ l2)%list. rewrite H1. simpl.
    rewrite (each_framed _ runCallback_framed), H2. simpl.
    now rewrite map_app.
Qed.

(** Every paragraph yields at least one token. *)
Lemma paragraphTokens_nonempty (paragraph : JSValue) (tokens : list JSValue) :
  paragraphTokens paragraph = Ok tokens -> tokens <> [].
Proof.
  unfold paragraphTokens. intros H.
  apply bind_ok_inv in H as (r & _ & H).
  apply bind_ok_inv in H as (collected & _ & H).
  apply bind_ok_inv in H as (br & _ & H).
  apply bind_ok_inv in H as (isBreak & Hb & H).
  injection H as <-.
  destruct isBreak.
  - intros E. now apply app_eq_nil in E as [_ E].
  - destruct (length _ =? 0)%nat eqn:Hlen in Hb; [discriminate|].
    apply Nat.eqb_neq in Hlen. intros E. apply Hlen. now rewrite E.
Qed.

Lemma paragraphTokens_wf (paragraph : JSValue) :
  wfParagraph paragraph = true ->
  exists l, paragraphTokens paragraph = Ok (map JString l).
Proof.
  unfold wfParagraph, paragraphTokens. intros H.
  apply andb_true_iff in H as [Hn H]. apply negb_true_iff in Hn.
  rewrite !(get_ok _ _ Hn). simpl.
  assert (Hruns : exists l,
    (if truthy (prop paragraph "a:r")
     then forEach (prop paragraph "a:r") runCallback []
     else Ok []) = Ok (map JString l)).
  { destruct (truthy (prop paragraph "a:r")) eqn:Ht.
    - destruct (childList_array _ _ H Ht) as (runs & -> & Hruns).
      simpl. now apply runs_wf.
    - now exists []. }
  destruct Hruns as [l ->]. simpl.
  assert (Hw : exists l',
    (if truthy (prop paragraph "a:br")
     then (map JString l ++ [JString newline])%list
     else map JString l) = map JString l').
  { destruct (truthy (prop paragraph "a:br")).
    - exists (l ++ [newline])%list. now rewrite map_app.
    - now exists l. }
  destruct Hw as [l' ->].
  destruct (length (map JString l') =? 0)%nat; simpl.
  - exists (l' ++ [newline])%list. now rewrite map_app.
  - destruct (truthy (prop paragraph "a:endParaRPr")).
    + exists (l' ++ [newline])%list. now rewrite map_app.
    + now exists l'.
Qed.

Lemma paragraphCallback_framed : Framed (paragraphCallback proto).
Proof.
  intros paragraph acc. unfold paragraphCallback.
  destruct (paragraphTokens paragraph) as [tokens|e]; simpl; [|reflexivity].
  destruct (0 <? length tokens)%nat; simpl.
  - now destruct (join proto tokens "").
  - now rewrite app_nil_r.
Qed.

(** The guard of the paragraph callback never skips: one string is pushed. *)
Lemma paragraphCallback_single (paragraph : JSValue) (o : list string) :
  paragraphCallback proto paragraph [] = Ok o -> exists s, o = [s].
Proof.
  unfold paragraphCallback. intros H.
  apply bind_ok_inv in H as (tokens & Ht & H).
  apply paragraphTokens_nonempty in Ht.
  destruct tokens as [|t tokens]; [congruence|]. simpl in H.
  apply bind_ok_inv in H as (s & _ & H). injection H as <-. now exists s.
Qed.

Lemma paragraphCallback_wf (paragraph : JSValue) :
  wfParagraph paragraph = true ->
  exists s, paragraphCallback proto paragraph [] = Ok [s].
Proof.
  intros H. destruct (paragraphTokens_wf paragraph H) as [l Hl].
  pose proof (paragraphTokens_nonempty _ _ Hl) as Hne.
  unfold paragraphCallback. rewrite Hl. simpl.
  destruct l as [|s l]; [now elim Hne|]. simpl length. simpl Nat.ltb.
  cbv iota.
  rewrite (joinWith_strings proto "" (s :: l)). simpl. now eexists.
Qed.

End Callbacks.

Lemma outputs_singles {A : Type}
  (callback : JSValue -> list A -> Result (list A))
  (items : list JSValue) (outs : list (list A)) :
  (forall x o, callback x [] = Ok o -> exists s, o = [s]) ->
  Outputs callback items outs ->
  Forall2 (fun x s => callback x [] = Ok [s]) items (concat outs).
Proof.
  intros Hsingle. induction 1 as [|x o items outs Hx _ IH]; simpl.
  - constructor.
  - destruct (Hsingle x o Hx) as [s ->]. simpl. now constructor.
Qed.

Lemma singles_outputs {A : Type}
  (callback : JSValue -> list A -> Result (list A))
  (items : list JSValue) (strs : list A) :
  Forall2 (fun x s => callback x [] = Ok [s]) items strs ->
  Outputs callback items (map (fun s => [s]) strs) /\
  concat (map (fun s => [s]) strs) = strs.
Proof.
  induction 1 as [|x s items strs Hx _ [IH1 IH2]]; simpl.
  - split; [constructor | reflexivity].
  - split; [now constructor | now rewrite IH2].
Qed.

Section Bodies.

Variable proto : bool.

Lemma textBodyCallback_framed : Framed (textBodyCallback proto).
Proof.
  intros textBody acc. unfold textBodyCallback, get.
  destruct (nullish textBody); simpl; [reflexivity|].
  destruct (truthy (prop textBody "a:p")); simpl.
  - destruct (forEach (prop textBody "a:p") (paragraphCallback proto) [])
      as [paragraphTexts|e]; simpl; [|reflexivity].
    destruct (0 <? length paragraphTexts)%nat; simpl; [reflexivity|].
    now rewrite app_nil_r.
  - now rewrite app_nil_r.
Qed.

(** A text body with paragraphs pushes the newline-join of their strings. *)
Lemma textBodyCallback_paragraphs (textBody : JSValue)
  (paragraphs : list JSValue) (strs : list string) :
  prop textBody "a:p" = JArray paragraphs ->
  paragraphs <> [] ->
  Forall2 (fun p s => paragraphCallback proto p [] = Ok [s]) paragraphs strs ->
  forall acc,
    textBodyCallback proto textBody acc
    = Ok (acc ++ [joinStrings strs newline])%list.
Proof.
  intros Hp Hne Hall acc. unfold textBodyCallback.
  rewrite !(get_ok _ _ (array_not_nullish _ _ _ Hp)), Hp. simpl.
  destruct (singles_outputs _ _ _ Hall) as [Houts Hcat].
  rewrite (each_outputs _ (paragraphCallback_framed proto) _ _ Houts), Hcat.
  simpl. destruct Hall as [|p s ps ss _ _]; [now elim Hne | reflexivity].
Qed.

Lemma textBodyCallback_inv (textBody : JSValue) (acc r : list string) :
  textBodyCallback proto textBody acc = Ok r ->
  (hasParagraph textBody = false /\ r = acc) \/
  (exists paragraphs strs,
      prop textBody "a:p" = JArray paragraphs /\ paragraphs <> [] /\
      Forall2 (fun p s => paragraphCallback proto p [] = Ok [s])
        paragraphs strs /\
      r = (acc ++ [joinStrings strs newline])%list).
Proof.
  unfold textBodyCallback, hasParagraph. intros H.
  apply bind_ok_inv in H as (p & Hp & H).
  apply get_inv in Hp as [Hn ->].
  destruct (truthy (prop textBody "a:p")) eqn:Ht.
  - rewrite (get_ok _ _ Hn) in H. simpl in H.
    apply bind_ok_inv in H as (paragraphTexts & Hf & H).
    destruct (prop textBody "a:p") as [| |s|paragraphs|f]; try discriminate.
    simpl in Hf.
    apply (each_ok_inv _ (paragraphCallback_framed proto)) in Hf
      as (outs & Houts & ->).
    apply (outputs_singles _ _ _ (paragraphCallback_single proto)) in Houts.
    simpl in H. remember (concat outs) as strs eqn:E. clear E outs.
    destruct Houts as [|q t qs ts Hq Hqs]; simpl in H.
    + left. injection H as <-. now split.
    + right. injection H as <-.
      exists (q :: qs), (t :: ts). repeat split; try congruence.
      now constructor.
  - left. injection H as <-. split; [|reflexivity].
    now destruct (prop textBody "a:p") as [| |s|[|p ps]|f].
Qed.

(** What a text body pushes: nothing without paragraph, else one block. *)
Lemma textBodyCallback_out (textBody : JSValue) (o : list string) :
  textBodyCallback proto textBody [] = Ok o ->
  (hasParagraph textBody = false /\ o = []) \/
  (hasParagraph textBody = true /\ exists t, o = [t]).
Proof.
  intros H. apply textBodyCallback_inv in H
    as [[Hh ->] | (ps & strs & Hp & Hne & _ & ->)].
  - now left.
  - right. split; [|now eexists].
    unfold hasParagraph. rewrite Hp. now destruct ps.
Qed.

Lemma paragraphs_wf (paragraphs : list JSValue) :
  forallb wfParagraph paragraphs = true ->
  exists strs,
    Forall2 (fun p s => paragraphCallback proto p [] = Ok [s]) paragraphs strs.
Proof.
  induction paragraphs as [|p ps IH]; simpl; intros H.
  - exists []. constructor.
  - apply andb_true_iff in H as [Hp Hps].
    destruct (paragraphCallback_wf proto p Hp) as [s Hs].
    destruct (IH Hps) as [strs Hstrs].
    exists (s :: strs). now constructor.
Qed.

Lemma textBodyCallback_wf (textBody : JSValue) :
  wfTextBody textBody = true ->
  exists o, textBodyCallback proto textBody [] = Ok o.
Proof.
  unfold wfTextBody. intros H.
  apply andb_true_iff in H as [Hn H]. apply negb_true_iff in Hn.
  destruct (truthy (prop textBody "a:p")) eqn:Ht.
  - destruct (childList_array _ _ H Ht) as (ps & Hp & Hps).
    destruct (paragraphs_wf ps Hps) as [strs Hstrs].
    destruct ps as [|p ps].
    + exists []. unfold textBodyCallback.
      rewrite !(get_ok _ _ Hn). cbn [bind]. now rewrite Hp.
    + eexists. apply (textBodyCallback_paragraphs _ _ strs Hp); [|exact Hstrs].
      discriminate.
  - exists []. unfold textBodyCallback.
    rewrite !(get_ok _ _ Hn). cbn [bind]. now rewrite Ht.
Qed.

Lemma shapeCallback_framed : Framed (shapeCallback proto).
Proof.
  intros shape acc. unfold shapeCallback, get.
  destruct (nullish shape); simpl; [reflexivity|].
  destruct (truthy (prop shape "p:txBody")); simpl.
  - apply (forEach_framed _ textBodyCallback_framed).
  - now rewrite app_nil_r.
Qed.

Lemma shapeCallback_out (shape : JSValue) (o : list string) :
  shapeCallback proto shape [] = Ok o ->
  exists outs,
    Outputs (textBodyCallback proto) (textBodies shape) outs /\
    o = concat outs.
Proof.
  unfold shapeCallback, textBodies. intros H.
  apply bind_ok_inv in H as (b & Hb & H).
  apply get_inv in Hb as [Hn ->].
  destruct (truthy (prop shape "p:txBody")) eqn:Ht.
  - rewrite (get_ok _ _ Hn) in H. simpl in H.
    destruct (prop shape "p:txBody") as [| |s|bodies|f]; try discriminate.
    simpl in H.
    now apply (each_ok_inv _ textBodyCallback_framed) in H.
  - injection H as <-. exists []. split; [|reflexivity].
    destruct (prop shape "p:txBody"); try constructor. discriminate.
Qed.

Lemma shapeCallback_wf (shape : JSValue) :
  wfShape shape = true -> exists o, shapeCallback proto shape [] = Ok o.
Proof.
  unfold wfShape. intros H.
  apply andb_true_iff in H as [Hn H]. apply negb_true_iff in Hn.
  unfold shapeCallback. rewrite !(get_ok _ _ Hn). simpl.
  destruct (truthy (prop shape "p:txBody")) eqn:Ht; [|now eexists].
  destruct (childList_array _ _ H Ht) as (bodies & -> & Hbodies). simpl.
  destruct (each_total (textBodyCallback proto) bodies) as [outs Houts].
  { intros body Hin. apply textBodyCallback_wf.
    now apply (proj1 (forallb_forall _ _) Hbodies). }
  eexists. exact (each_outputs _ textBodyCallback_framed _ _ Houts []).
Qed.

End Bodies.

(** ** [extractTextFromSlide] *)

Lemma falsy_prop (v : JSValue) (k : string) :
  truthy v = false -> prop v k = JUndefined.
Proof. destruct v; simpl; congruence. Qed.

Lemma falsy_first (v : JSValue) : truthy v = false -> first v = JUndefined.
Proof. destruct v as [| |[|c s]|l|f]; simpl; congruence. Qed.

Lemma falsy_no_array (v : JSValue) :
  truthy v = false -> match v with JArray l => l | _ => [] end = [].
Proof. destruct v; simpl; congruence. Qed.

Section Extractor.

Variable proto : bool.

(** The navigation of [extractTextFromSlide] on a slide tree that is
    neither [undefined] nor [null]. *)
Lemma extractTextFromSlide_unfold (slideData : JSValue) :
  nullish slideData = false ->
  extractTextFromSlide proto slideData =
  let sld := prop slideData "p:sld" in
  if truthy sld then
    let cSld := prop sld "p:cSld" in
    if truthy cSld then
      if nullish (first cSld) then Throw (TypeError (CannotRead "p:spTree"))
      else
        let trees := prop (first cSld) "p:spTree" in
        if truthy trees then
          if nullish (first trees) then Throw (TypeError (CannotRead "p:sp"))
          else
            let sp := prop (first trees) "p:sp" in
            if truthy sp then forEach sp (shapeCallback proto) [] else Ok []
        else Ok []
    else Ok []
  else Ok [].
Proof.
  intros Hn. unfold extractTextFromSlide, spTreeOf, cSldOf.
  rewrite !(get_ok slideData _ Hn). cbn [bind]. cbv zeta.
  destruct (truthy (prop slideData "p:sld")) eqn:H1;
    [|cbn [bind]; now rewrite H1].
  rewrite !(get_ok _ _ (truthy_not_nullish _ H1)). cbn [bind].
  destruct (truthy (prop (prop slideData "p:sld") "p:cSld")) eqn:H2;
    [|cbn [bind]; now rewrite H2].
  rewrite !(get0_ok _ (truthy_not_nullish _ H2)). cbn [bind].
  destruct (nullish (first (prop (prop slideData "p:sld") "p:cSld"))) eqn:H3.
  { unfold get. now rewrite H3. }
  rewrite !(get_ok _ _ H3). cbn [bind].
  destruct (truthy (prop (first (prop (prop slideData "p:sld") "p:cSld"))
                      "p:spTree")) eqn:H4; [|reflexivity].
  rewrite (get0_ok _ (truthy_not_nullish _ H4)). cbn [bind].
  destruct (nullish (first (prop (first (prop (prop slideData "p:sld")
                                           "p:cSld")) "p:spTree"))) eqn:H5.
  { unfold get. now rewrite H5. }
  rewrite !(get_ok _ _ H5). cbn [bind].
  now destruct (truthy (prop (first (prop (first (prop (prop slideData "p:sld")
                                "p:cSld")) "p:spTree")) "p:sp")).
Qed.

Lemma extractTextFromSlide_not_nullish (slideData : JSValue)
  (texts : list string) :
  extractTextFromSlide proto slideData = Ok texts -> nullish slideData = false.
Proof.
  unfold extractTextFromSlide. intros H.
  apply bind_ok_inv in H as (sld & Hs & _). now apply get_inv in Hs.
Qed.

(** The result is what the shape callback pushes, shape by shape. *)
Lemma extractTextFromSlide_out (slideData : JSValue) (texts : list string) :
  extractTextFromSlide proto slideData = Ok texts ->
  exists outs,
    Outputs (shapeCallback proto) (shapes slideData) outs /\
    texts = concat outs.
Proof.
  intros H. pose proof (extractTextFromSlide_not_nullish _ _ H) as Hn.
  rewrite (extractTextFromSlide_unfold _ Hn) in H. cbv zeta in H.
  unfold shapes.
  assert (Hnone : forall v, truthy v = false -> Ok [] = Ok texts ->
    exists outs,
      Outputs (shapeCallback proto) match v with JArray l => l | _ => [] end outs
      /\ texts = concat outs).
  { intros v Hv E. injection E as <-. exists [].
    rewrite (falsy_no_array _ Hv). split; [constructor | reflexivity]. }
  destruct (truthy (prop slideData "p:sld")) eqn:H1.
  2:{ rewrite (falsy_prop _ "p:cSld" H1). now apply Hnone. }
  destruct (truthy (prop (prop slideData "p:sld") "p:cSld")) eqn:H2.
  2:{ rewrite (falsy_first _ H2). now apply Hnone. }
  destruct (nullish (first (prop (prop slideData "p:sld") "p:cSld")));
    [discriminate|].
  destruct (truthy (prop (first (prop (prop slideData "p:sld") "p:cSld"))
                      "p:spTree")) eqn:H4.
  2:{ rewrite (falsy_first _ H4). now apply Hnone. }
  destruct (nullish (first (prop (first (prop (prop slideData "p:sld")
                                           "p:cSld")) "p:spTree")));
    [discriminate|].
  destruct (truthy (prop (first (prop (first (prop (prop slideData "p:sld")
                          "p:cSld")) "p:spTree")) "p:sp")) eqn:H6.
  2:{ now apply Hnone. }
  destruct (prop (first (prop (first (prop (prop slideData "p:sld")
              "p:cSld")) "p:spTree")) "p:sp") as [| |s|l|f]; try discriminate.
  simpl in H.
  now apply (each_ok_inv _ (shapeCallback_framed proto)) in H.
Qed.

(** On a well-formed slide tree the extractor returns. *)
Lemma extractTextFromSlide_wf (slideData : JSValue) :
  wfSlide slideData = true ->
  exists texts, extractTextFromSlide proto slideData = Ok texts.
Proof.
  unfold wfSlide. intros H.
  apply andb_true_iff in H as [Hn H]. apply negb_true_iff in Hn.
  rewrite (extractTextFromSlide_unfold _ Hn). cbv zeta in *.
  destruct (truthy (prop slideData "p:sld")); [|now eexists].
  destruct (truthy (prop (prop slideData "p:sld") "p:cSld")); [|now eexists].
  apply andb_true_iff in H as [H3 H]. apply negb_true_iff in H3. rewrite H3.
  destruct (truthy (prop (first (prop (prop slideData "p:sld") "p:cSld"))
                      "p:spTree")); [|now eexists].
  apply andb_true_iff in H as [H5 H]. apply negb_true_iff in H5. rewrite H5.
  destruct (truthy (prop (first (prop (first (prop (prop slideData "p:sld")
                          "p:cSld")) "p:spTree")) "p:sp")) eqn:H6;
    [|now eexists].
  destruct (childList_array _ _ H H6) as (l & -> & Hl). simpl.
  destruct (each_total (shapeCallback proto) l) as [outs Houts].
  { intros shape Hin. apply shapeCallback_wf.
    now apply (proj1 (forallb_forall _ _) Hl). }
  eexists. exact (each_outputs _ (shapeCallback_framed proto) _ _ Houts []).
Qed.

End Extractor.

Lemma Forall2_In_l {A B : Type} (R : A -> B -> Prop) (l : list A)
  (l' : list B) (x : A) :
  Forall2 R l l' -> In x l -> exists y, R x y.
Proof.
  induction 1 as [|a b l l' Hab _ IH]; simpl; [tauto|].
  intros [<- | Hin]; [now exists b | auto].
Qed.

Lemma flat_map_length_le {A B : Type} (f : A -> list B) (l : list A) :
  (forall x, In x l -> length (f x) <= 1) ->
  length (flat_map f l) <= length l.
Proof.
  induction l as [|x l IH]; simpl; intros H; [lia|].
  rewrite length_app.
  pose proof (H x (or_introl eq_refl)).
  assert (length (flat_map f l) <= length l) by (apply IH; auto). lia.
Qed.

Lemma flat_map_length_lt {A B : Type} (f : A -> list B) (l : list A) :
  (forall x, In x l -> length (f x) <= 1) ->
  (exists x, In x l /\ f x = []) ->
  length (flat_map f l) < length l.
Proof.
  induction l as [|x l IH]; simpl; intros H (y & Hy & Hnil); [tauto|].
  rewrite length_app.
  pose proof (H x (or_introl eq_refl)).
  destruct Hy as [-> | Hy].
  - rewrite Hnil. simpl.
    assert (length (flat_map f l) <= length l)
      by (apply flat_map_length_le; auto). lia.
  - assert (length (flat_map f l) < length l)
      by (apply IH; [auto | now exists y]). lia.
Qed.

Section Blocks.

Variable proto : bool.

Lemma outputs_flat (shapeNodes : list JSValue) (outs : list (list string)) :
  Outputs (shapeCallback proto) shapeNodes outs ->
  exists outs',
    Outputs (textBodyCallback proto) (flat_map textBodies shapeNodes) outs' /\
    concat outs = concat outs'.
Proof.
  induction 1 as [|shape o shapeNodes outs Hs _ (outs' & IH1 & IH2)]; simpl.
  - exists []. split; [constructor | reflexivity].
  - apply shapeCallback_out in Hs as (outs1 & H1 & ->).
    exists (outs1 ++ outs')%list. split.
    + now apply Forall2_app.
    + now rewrite concat_app, IH2.
Qed.

Lemma outputs_blocks (bodies : list JSValue) (outs : list (list string)) :
  Outputs (textBodyCallback proto) bodies outs ->
  Forall2 (fun body t => textBodyCallback proto body [] = Ok [t])
    (filter hasParagraph bodies) (concat outs).
Proof.
  induction 1 as [|body o bodies outs Hb _ IH]; simpl; [constructor|].
  destruct (textBodyCallback_out _ _ _ Hb) as [[-> ->] | [-> [t ->]]]; simpl.
  - exact IH.
  - now constructor.
Qed.

End Blocks.

(** C3, amended.  A well-formed slide tree makes [extractTextFromSlide]
    return; whenever it returns, the texts are one text block per text body
    that contains a paragraph, in document order (shape by shape, text
    body by text body).  A shape without text body and a text body without
    paragraph push nothing.  So there are no more texts than text bodies,
    and fewer texts than shapes when no shape has two text bodies and some
    shape has none. *)
Theorem extractTextFromSlide_one_block_per_text_body :
  forall (proto : bool) (slideData : JSValue),
    (wfSlide slideData = true ->
     exists texts, extractTextFromSlide proto slideData = Ok texts) /\
    (forall texts,
        extractTextFromSlide proto slideData = Ok texts ->
        let bodies := flat_map textBodies (shapes slideData) in
        Forall2 (fun body t =>
                   forall acc,
                     textBodyCallback proto body acc = Ok (acc ++ [t])%list)
          (filter hasParagraph bodies) texts /\
        (forall shape acc,
            In shape (shapes slideData) -> textBodies shape = [] ->
            shapeCallback proto shape acc = Ok acc) /\
        (forall body acc,
            In body bodies -> hasParagraph body = false ->
            textBodyCallback proto body acc = Ok acc) /\
        length texts <= length bodies /\
        ((forall shape,
             In shape (shapes slideData) -> length (textBodies shape) <= 1) ->
         (exists shape, In shape (shapes slideData) /\ textBodies shape = []) ->
         length texts < length (shapes slideData))).
Proof.
  intros proto slideData. split; [apply extractTextFromSlide_wf|].
  intros texts H bodies.
  apply extractTextFromSlide_out in H as (outs & Houts & ->).
  destruct (outputs_flat _ _ _ Houts) as (outs' & Hbodies & ->).
  pose proof (outputs_blocks _ _ _ Hbodies) as Hblocks. fold bodies in Hblocks.
  assert (Hlen : length (concat outs') <= length bodies).
  { rewrite <- (Forall2_length Hblocks). apply filter_length_le. }
  repeat split.
  - eapply Forall2_impl; [|exact Hblocks].
    intros body t Hb acc. cbv beta in Hb.
    now rewrite (textBodyCallback_framed proto body acc), Hb.
  - intros shape acc Hin Hnil.
    destruct (Forall2_In_l _ _ _ _ Houts Hin) as [o Ho].
    rewrite (shapeCallback_framed proto shape acc), Ho. simpl.
    apply shapeCallback_out in Ho as (outs1 & H1 & ->).
    rewrite Hnil in H1. inversion H1. simpl. now rewrite app_nil_r.
  - intros body acc Hin Hno.
    destruct (Forall2_In_l _ _ _ _ Hbodies Hin) as [o Ho].
    rewrite (textBodyCallback_framed proto body acc), Ho. simpl.
    destruct (textBodyCallback_out _ _ _ Ho) as [[_ ->] | [Hyes _]];
      [now rewrite app_nil_r | congruence].
  - exact Hlen.
  - intros Hone Hbare.
    pose proof (flat_map_length_lt textBodies (shapes slideData) Hone Hbare).
    fold bodies in H. lia.
Qed.

(** C9, amended.  [extractTextFromSlide] returns on every well-formed slide
    tree.  It returns the empty list when the slide root is absent, when
    the content-tree container is absent, when the shape tree is absent and
    when the shape list is absent.  A run without text-content child
    pushes nothing. *)
Theorem extractTextFromSlide_returns_on_wellformed :
  forall (proto : bool) (slideData : JSValue),
    nullish slideData = false ->
    let sld := prop slideData "p:sld" in
    let cSld := prop sld "p:cSld" in
    let trees := prop (first cSld) "p:spTree" in
    let sp := prop (first trees) "p:sp" in
    (wfSlide slideData = true ->
     exists texts, extractTextFromSlide proto slideData = Ok texts) /\
    (truthy sld = false -> extractTextFromSlide proto slideData = Ok []) /\
    (truthy sld = true -> truthy cSld = false ->
     extractTextFromSlide proto slideData = Ok []) /\
    (truthy sld = true -> truthy cSld = true ->
     nullish (first cSld) = false -> truthy trees = false ->
     extractTextFromSlide proto slideData = Ok []) /\
    (truthy sld = true -> truthy cSld = true ->
     nullish (first cSld) = false -> truthy trees = true ->
     nullish (first trees) = false -> truthy sp = false ->
     extractTextFromSlide proto slideData = Ok []) /\
    (forall run paragraphText,
        nullish run = false -> truthy (prop run "a:t") = false ->
        runCallback run paragraphText = Ok paragraphText).
Proof.
  intros proto slideData Hn sld cSld trees sp. subst sld cSld trees sp.
  split; [apply extractTextFromSlide_wf|].
  rewrite (extractTextFromSlide_unfold proto _ Hn). cbv zeta.
  repeat split.
  - now intros ->.
  - now intros -> ->.
  - now intros -> -> -> ->.
  - now intros -> -> -> -> -> ->.
  - intros run paragraphText Hr Ht. unfold runCallback.
    rewrite (get_ok _ _ Hr). cbn [bind]. now rewrite Ht.
Qed.

Lemma joinStrings_concat (strs : list string) (sep : string) :
  joinStrings strs sep = String.concat sep strs.
Proof.
  induction strs as [|s strs IH]; [reflexivity|].
  destruct strs as [|s' strs]; [reflexivity|].
  cbn [joinStrings String.concat] in *. now rewrite IH.
Qed.

Lemma runCallback_tokens (run : JSValue) (acc r : list JSValue) :
  runCallback run acc = Ok r -> r = (acc ++ tokensOfRun run)%list.
Proof.
  unfold runCallback, tokensOfRun. intros H.
  apply bind_ok_inv in H as (t & Ht & H). apply get_inv in Ht as [Hn ->].
  destruct (truthy (prop run "a:t")).
  - apply bind_ok_inv in H as (t' & Ht' & H). apply get_inv in Ht' as [_ ->].
    apply bind_ok_inv in H as (text & Htext & H).
    apply get0_inv in Htext as [_ ->]. now injection H as <-.
  - injection H as <-. now rewrite app_nil_r.
Qed.

Lemma each_runCallback_tokens (runs : list JSValue) :
  forall acc r,
    each runCallback runs acc = Ok r ->
    r = (acc ++ flat_map tokensOfRun runs)%list.
Proof.
  induction runs as [|run runs IH]; intros acc r H; cbn [each flat_map] in *.
  - injection H as <-. now rewrite app_nil_r.
  - apply bind_ok_inv in H as (acc' & Hrun & H).
    apply runCallback_tokens in Hrun as ->. apply IH in H as ->.
    now rewrite app_assoc.
Qed.

(** The array the paragraph callback builds holds the tokens of the
    paragraph. *)
Lemma paragraphTokens_spec (paragraph : JSValue) (tokens : list JSValue) :
  paragraphTokens paragraph = Ok tokens ->
  tokens = tokensOfParagraph paragraph.
Proof.
  unfold paragraphTokens, tokensOfParagraph. intros H.
  apply bind_ok_inv in H as (r & Hr & H). apply get_inv in Hr as [Hn ->].
  apply bind_ok_inv in H as (collected & Hc & H).
  assert (E : collected
              = flat_map tokensOfRun
                  match prop paragraph "a:r" with JArray l => l | _ => [] end).
  { destruct (truthy (prop paragraph "a:r")) eqn:Ht.
    - apply bind_ok_inv in Hc as (r' & Hr' & Hc).
      apply get_inv in Hr' as [_ ->].
      destruct (prop paragraph "a:r") as [| |s|runs|f]; try discriminate.
      cbn [forEach] in Hc. now apply each_runCallback_tokens in Hc.
    - injection Hc as <-. now rewrite (falsy_no_array _ Ht). }
  rewrite <- E. clear E Hc.
  apply bind_ok_inv in H as (br & Hbr & H). apply get_inv in Hbr as [_ ->].
  apply bind_ok_inv in H as (isBreak & Hb & H). injection H as <-.
  destruct (truthy (prop paragraph "a:br")).
  - destruct (collected ++ [JString newline])%list eqn:E;
      [now apply app_eq_nil in E as [_ E]|].
    rewrite <- E in *. clear E.
    destruct (length _ =? 0)%nat eqn:Hlen in Hb.
    + apply Nat.eqb_eq in Hlen. rewrite length_app in Hlen.
      simpl in Hlen. lia.
    + apply bind_ok_inv in Hb as (e & He & Hb). apply get_inv in He as [_ ->].
      injection Hb as <-.
      destruct (truthy (prop paragraph "a:endParaRPr"));
        now rewrite <- ?app_assoc, ?app_nil_r.
  - rewrite !app_nil_r in *. cbn [app].
    destruct collected as [|c collected].
    + injection Hb as <-. reflexivity.
    + cbn [length Nat.eqb] in Hb.
      apply bind_ok_inv in Hb as (e & He & Hb). apply get_inv in He as [_ ->].
      injection Hb as <-.
      destruct (truthy (prop paragraph "a:endParaRPr"));
        now rewrite ?app_nil_r.
Qed.

Section ParagraphStrings.

Variable proto : bool.

(** What the paragraph callback pushes is the join of the tokens of the
    paragraph. *)
Lemma paragraphCallback_spec (paragraph : JSValue) (acc r : list string) :
  paragraphCallback proto paragraph acc = Ok r ->
  paragraphTokens paragraph = Ok (tokensOfParagraph paragraph) /\
  tokensOfParagraph paragraph <> [] /\
  exists s,
    join proto (tokensOfParagraph paragraph) "" = Ok s /\
    r = (acc ++ [s])%list.
Proof.
  unfold paragraphCallback. intros H.
  apply bind_ok_inv in H as (tokens & Ht & H).
  pose proof (paragraphTokens_nonempty _ _ Ht) as Hne.
  pose proof (paragraphTokens_spec _ _ Ht) as ->.
  split; [exact Ht|]. split; [exact Hne|].
  destruct (tokensOfParagraph paragraph) as [|t tokens]; [now elim Hne|].
  cbn [length Nat.ltb Nat.leb] in H.
  apply bind_ok_inv in H as (s & Hs & H). injection H as <-. now exists s.
Qed.

Lemma paragraphs_wf_texts (paragraphs : list JSValue) :
  forallb wfParagraph paragraphs = true ->
  exists textLists,
    Forall2 (fun p l => tokensOfParagraph p = map JString l /\ l <> [])
      paragraphs textLists /\
    Forall2 (fun p s => paragraphCallback proto p [] = Ok [s])
      paragraphs (map (String.concat "") textLists).
Proof.
  induction paragraphs as [|p ps IH]; cbn [forallb]; intros H.
  - exists []. split; constructor.
  - apply andb_true_iff in H as [Hp Hps].
    destruct (IH Hps) as (textLists & H1 & H2).
    destruct (paragraphTokens_wf p Hp) as [l Hl].
    pose proof (paragraphTokens_nonempty _ _ Hl) as Hne.
    pose proof (paragraphTokens_spec _ _ Hl) as Hspec.
    exists (l :: textLists). split; constructor; try assumption.
    + split; [now symmetry|]. intros ->. now apply Hne.
    + unfold paragraphCallback. rewrite Hl. cbn [bind].
      destruct l as [|t l]; [now elim Hne|].
      cbn [map length Nat.ltb Nat.leb].
      change (JString t :: map JString l) with (map JString (t :: l)).
      now rewrite joinWith_strings, joinStrings_concat.
Qed.

End ParagraphStrings.

(** C10, amended.  In a text body with at least one paragraph node, every
    paragraph that is read yields its tokens (what its runs contribute,
    the break newline, the newline of an empty or terminated paragraph),
    at least one, so the guard of the paragraph callback never skips and
    the callback pushes the join of the tokens.  Whenever the text body is
    processed it pushes one text block: the newline-join of one string per
    paragraph node, each the join of the tokens of its paragraph.  It is
    processed whenever its paragraphs are well-formed, and then each
    string is the concatenation of the token texts. *)
Theorem textBody_emits_join_of_paragraph_tokens :
  forall (proto : bool) (textBody : JSValue) (paragraphs : list JSValue),
    prop textBody "a:p" = JArray paragraphs ->
    paragraphs <> [] ->
    (forall paragraph tokens,
        paragraphTokens paragraph = Ok tokens ->
        tokens = tokensOfParagraph paragraph /\ 0 < length tokens) /\
    (forall paragraph acc r,
        paragraphCallback proto paragraph acc = Ok r ->
        exists s,
          join proto (tokensOfParagraph paragraph) "" = Ok s /\
          r = (acc ++ [s])%list) /\
    (forall texts r,
        textBodyCallback proto textBody texts = Ok r ->
        exists strs,
          Forall2 (fun p s =>
                     paragraphTokens p = Ok (tokensOfParagraph p) /\
                     tokensOfParagraph p <> [] /\
                     join proto (tokensOfParagraph p) "" = Ok s)
            paragraphs strs /\
          r = (texts ++ [String.concat newline strs])%list) /\
    (forallb wfParagraph paragraphs = true ->
     exists textLists,
       Forall2 (fun p l => tokensOfParagraph p = map JString l /\ l <> [])
         paragraphs textLists /\
       forall texts,
         textBodyCallback proto textBody texts
         = Ok (texts ++
               [String.concat newline
                  (map (String.concat "") textLists)])%list).
Proof.
  intros proto textBody paragraphs Hp Hne. split; [|split; [|split]].
  - intros paragraph tokens H. split; [now apply paragraphTokens_spec|].
    apply paragraphTokens_nonempty in H.
    destruct tokens; [congruence | simpl; lia].
  - intros paragraph acc r H.
    now apply paragraphCallback_spec in H as (_ & _ & H).
  - intros texts r H.
    apply textBodyCallback_inv in H
      as [[Hno _] | (ps & strs & Hp' & _ & Hall & ->)].
    + unfold hasParagraph in Hno. rewrite Hp in Hno.
      destruct paragraphs; [congruence | discriminate].
    + rewrite Hp in Hp'. injection Hp' as <-. exists strs.
      rewrite joinStrings_concat. split; [|reflexivity].
      eapply Forall2_impl; [|exact Hall].
      intros p s Hs. cbv beta in Hs.
      apply paragraphCallback_spec in Hs as (Ht & Hnonempty & s' & Hj & E).
      cbn [app] in E. injection E as ->. now repeat split.
  - intros Hwf.
    destruct (paragraphs_wf_texts proto _ Hwf) as (textLists & H1 & H2).
    exists textLists. split; [exact H1|]. intros texts.
    rewrite (textBodyCallback_paragraphs proto _ _ _ Hp Hne H2).
    now rewrite joinStrings_concat.
Qed.

(** ** Paragraph scenarios *)

Lemma runCallback_text (run x : JSValue) (rest acc : list JSValue) :
  prop run "a:t" = JArray (x :: rest) ->
  runCallback run acc = Ok (acc ++ [x])%list.
Proof.
  intros H. unfold runCallback.
  rewrite !(get_ok _ _ (array_not_nullish _ _ _ H)). cbn [bind].
  now rewrite H.
Qed.

(** The tokens of a paragraph, given the tokens of its runs. *)
Lemma paragraphTokens_runs (paragraph : JSValue) (runs tokens : list JSValue) :
  prop paragraph "a:r" = JArray runs ->
  each runCallback runs [] = Ok tokens ->
  paragraphTokens paragraph =
  Ok (let withBreak :=
        if truthy (prop paragraph "a:br")
        then (tokens ++ [JString newline])%list else tokens in
      if (length withBreak =? 0)%nat || truthy (prop paragraph "a:endParaRPr")
      then (withBreak ++ [JString newline])%list else withBreak).
Proof.
  intros Hr Hruns. unfold paragraphTokens.
  rewrite !(get_ok _ _ (array_not_nullish _ _ _ Hr)). cbn [bind].
  rewrite Hr. simpl truthy. cbv iota. simpl forEach. rewrite Hruns.
  cbn [bind]. cbv zeta.
  now destruct (length _ =? 0)%nat.
Qed.

(** The tokens of a paragraph without run list. *)
Lemma paragraphTokens_no_runs (paragraph : JSValue) :
  nullish paragraph = false ->
  truthy (prop paragraph "a:r") = false ->
  paragraphTokens paragraph =
  Ok (let withBreak :=
        if truthy (prop paragraph "a:br") then [JString newline] else [] in
      if (length withBreak =? 0)%nat || truthy (prop paragraph "a:endParaRPr")
      then (withBreak ++ [JString newline])%list else withBreak).
Proof.
  intros Hn Hr. unfold paragraphTokens.
  rewrite !(get_ok _ _ Hn). cbn [bind]. rewrite Hr. cbn [bind]. cbv zeta.
  simpl app.
  now destruct (length _ =? 0)%nat.
Qed.

(** C5.  A paragraph with two runs of texts [text1] and [text2], without
    break marker and without end-of-paragraph marker, yields the single
    string [text1 ++ text2]: the run texts in order, nothing between them,
    nothing trimmed. *)
Theorem paragraph_concatenates_run_texts :
  forall (proto : bool) (paragraph run1 run2 : JSValue) (text1 text2 : string)
         (paragraphTexts : list string),
    prop paragraph "a:r" = JArray [run1; run2] ->
    prop run1 "a:t" = JArray [JString text1] ->
    prop run2 "a:t" = JArray [JString text2] ->
    truthy (prop paragraph "a:br") = false ->
    truthy (prop paragraph "a:endParaRPr") = false ->
    paragraphTokens paragraph = Ok [JString text1; JString text2] /\
    paragraphCallback proto paragraph paragraphTexts
    = Ok (paragraphTexts ++ [(text1 ++ text2)%string])%list.
Proof.
  intros proto paragraph run1 run2 text1 text2 paragraphTexts Hr H1 H2 Hbr He.
  assert (Ht : paragraphTokens paragraph = Ok [JString text1; JString text2]).
  { rewrite (paragraphTokens_runs _ _ [JString text1; JString text2] Hr).
    - now rewrite Hbr, He.
    - simpl. rewrite (runCallback_text _ _ _ _ H1). simpl.
      now rewrite (runCallback_text _ _ _ _ H2). }
  split; [exact Ht|].
  unfold paragraphCallback. now rewrite Ht.
Qed.

(** C6.  A paragraph with one run of text [text] and a break marker,
    without end-of-paragraph marker, yields [text] followed by a newline. *)
Theorem paragraph_break_appends_newline :
  forall (proto : bool) (paragraph run : JSValue) (text : string)
         (paragraphTexts : list string),
    prop paragraph "a:r" = JArray [run] ->
    prop run "a:t" = JArray [JString text] ->
    truthy (prop paragraph "a:br") = true ->
    truthy (prop paragraph "a:endParaRPr") = false ->
    paragraphTokens paragraph = Ok [JString text; JString newline] /\
    paragraphCallback proto paragraph paragraphTexts
    = Ok (paragraphTexts ++ [(text ++ newline)%string])%list.
Proof.
  intros proto paragraph run text paragraphTexts Hr H1 Hbr He.
  assert (Ht : paragraphTokens paragraph = Ok [JString text; JString newline]).
  { rewrite (paragraphTokens_runs _ _ [JString text] Hr).
    - now rewrite Hbr, He.
    - simpl. now rewrite (runCallback_text _ _ _ _ H1). }
  split; [exact Ht|].
  unfold paragraphCallback. now rewrite Ht.
Qed.

(** C4.  A text body with two paragraphs, the first with a single run of
    text [text] and neither marker, the second without run and without
    break marker, yields the text block [text], newline, newline: the
    empty paragraph gives a lone newline and the paragraph strings are
    joined with a newline. *)
Theorem textBody_joins_empty_paragraph :
  forall (proto : bool) (textBody paragraph1 paragraph2 run : JSValue)
         (text : string)
         (texts : list string),
    prop textBody "a:p" = JArray [paragraph1; paragraph2] ->
    prop paragraph1 "a:r" = JArray [run] ->
    prop run "a:t" = JArray [JString text] ->
    truthy (prop paragraph1 "a:br") = false ->
    truthy (prop paragraph1 "a:endParaRPr") = false ->
    nullish paragraph2 = false ->
    truthy (prop paragraph2 "a:r") = false ->
    truthy (prop paragraph2 "a:br") = false ->
    paragraphCallback proto paragraph1 [] = Ok [text] /\
    paragraphCallback proto paragraph2 [] = Ok [newline] /\
    textBodyCallback proto textBody texts
    = Ok (texts ++ [(text ++ newline ++ newline)%string])%list.
Proof.
  intros proto textBody p1 p2 run text texts Hp Hr Ht Hbr He Hn Hr2 Hbr2.
  assert (H1 : paragraphCallback proto p1 [] = Ok [text]).
  { unfold paragraphCallback.
    rewrite (paragraphTokens_runs _ _ [JString text] Hr).
    - now rewrite Hbr, He.
    - simpl. now rewrite (runCallback_text _ _ _ _ Ht). }
  assert (H2 : paragraphCallback proto p2 [] = Ok [newline]).
  { unfold paragraphCallback.
    rewrite (paragraphTokens_no_runs _ Hn Hr2). now rewrite Hbr2. }
  repeat split; [exact H1 | exact H2 |].
  rewrite (textBodyCallback_paragraphs proto _ _ [text; newline] Hp).
  - reflexivity.
  - discriminate.
  - now repeat constructor.
Qed.

(** ** The loader *)

Lemma find_path_none (files : list File.t) (path : string) :
  find (fun d => (File.path d =? path)%string) files = None <->
  ~ hasEntry files path.
Proof.
  unfold hasEntry. induction files as [|f files IH]; simpl; [tauto|].
  destruct (String.eqb_spec (File.path f) path) as [E|E].
  - split; [discriminate | intros H; elim H; now left].
  - rewrite IH. tauto.
Qed.

Lemma find_path_some (files : list File.t) (path : string) (f : File.t) :
  find (fun d => (File.path d =? path)%string) files = Some f ->
  In f files /\ File.path f = path.
Proof.
  intros H. apply find_some in H as [Hin E]. now apply String.eqb_eq in E.
Qed.

Lemma existsb_path (files : list File.t) (path : string) :
  existsb (fun f => (File.path f =? path)%string) files = true <->
  hasEntry files path.
Proof.
  unfold hasEntry. rewrite existsb_exists, in_map_iff. split.
  - intros (f & Hin & E). apply String.eqb_eq in E. now exists f.
  - intros (f & E & Hin). exists f. split; [exact Hin|].
    now apply String.eqb_eq.
Qed.

Lemma find_existsb {A : Type} (p : A -> bool) (l : list A) :
  existsb p l = match find p l with Some _ => true | None => false end.
Proof.
  induction l as [|x l IH]; simpl; [reflexivity|]. now destruct (p x).
Qed.

Section Loader.

Variable proto : bool.
Variable typeErrorMessage : TypeErrorKind -> string.
Variable openFile : string -> Result (list File.t).
Variable parseString : string -> Result JSValue.

Lemma findM_target (files : list File.t) (relation : SlideRelation.t)
  (t : string) :
  toStringJS proto (SlideRelation.target relation) = Ok t ->
  findM (fun f =>
           t' <- toStringJS proto (SlideRelation.target relation) ;;
           Ok (File.path f =? "ppt/" ++ t')%string) files
  = Ok (find (fun f => (File.path f =? "ppt/" ++ t)%string) files).
Proof.
  intros Ht. rewrite Ht. cbn [bind].
  induction files as [|f files IH]; cbn [findM find bind]; [reflexivity|].
  now destruct (File.path f =? "ppt/" ++ t)%string.
Qed.

Lemma findM_target_throw (files : list File.t) (relation : SlideRelation.t)
  (e : Exn) (o : option File.t) :
  toStringJS proto (SlideRelation.target relation) = Throw e ->
  findM (fun f =>
           t' <- toStringJS proto (SlideRelation.target relation) ;;
           Ok (File.path f =? "ppt/" ++ t')%string) files = Ok o ->
  o = None.
Proof.
  intros Ht. destruct files as [|f files]; simpl.
  - congruence.
  - now rewrite Ht.
Qed.

(** What the callback of [slideRelations.map] resolves to. *)
Lemma slideOf_ok (files : list File.t) (relation : SlideRelation.t)
  (o : option ParsedSlide.t) :
  slideOf proto parseString files relation = Ok o ->
  match o with
  | None => resolves proto files relation = false
  | Some slide =>
      resolves proto files relation = true /\
      slideOfRelation proto parseString files slide relation
  end.
Proof.
  unfold slideOf, resolves, slideOfRelation. intros H.
  apply bind_ok_inv in H as (slideFile & Hf & H).
  pose proof (findM_target files relation) as Hfound.
  pose proof (findM_target_throw files relation) as Hthrown.
  destruct (toStringJS proto (SlideRelation.target relation)) as [t|e] eqn:Ht.
  - rewrite (Hfound t eq_refl) in Hf. injection Hf as <-.
    rewrite find_existsb.
    destruct (find _ files) as [f|] eqn:Hfind.
    + apply bind_ok_inv in H as (content & Hc & H).
      apply bind_ok_inv in H as (tree & Hp & H).
      injection H as <-. simpl.
      apply find_path_some in Hfind as [Hin Hpath].
      split; [reflexivity|]. split; [reflexivity|].
      now exists t, f.
    + now injection H as <-.
  - rewrite (Hthrown e slideFile eq_refl Hf) in H. now injection H as <-.
Qed.

Lemma mapM_slideOf (files : list File.t) (relations : list SlideRelation.t) :
  forall slides,
    mapM (slideOf proto parseString files) relations = Ok slides ->
    Forall2 (slideOfRelation proto parseString files)
      (dropNull slides) (filter (resolves proto files) relations).
Proof.
  induction relations as [|relation relations IH]; intros slides H; simpl in H.
  - injection H as <-. constructor.
  - apply bind_ok_inv in H as (o & Ho & H).
    apply bind_ok_inv in H as (rest & Hrest & H).
    injection H as <-. apply slideOf_ok in Ho. apply IH in Hrest. simpl.
    destruct o as [slide|].
    + destruct Ho as [-> Hs]. now constructor.
    + now rewrite Ho.
Qed.

Lemma parse_ok (filePath : string) (result : ParsedPresentation.t) :
  parse proto typeErrorMessage openFile parseString filePath = Ok result ->
  parseTry proto openFile parseString filePath = Ok result.
Proof.
  unfold parse.
  now destruct (parseTry proto openFile parseString filePath).
Qed.

(** The slides of a result follow the slide relations that resolve. *)
Lemma parse_slides (filePath : string) (result : ParsedPresentation.t) :
  parse proto typeErrorMessage openFile parseString filePath = Ok result ->
  exists files relations,
    openFile filePath = Ok files /\
    getSlideRelations
      (Part.parsed (ParsedPresentation.relationships result)) = Ok relations /\
    Forall2 (slideOfRelation proto parseString files)
      (ParsedPresentation.slides result)
      (filter (resolves proto files) relations).
Proof.
  intros H. apply parse_ok in H. unfold parseTry in H.
  apply bind_ok_inv in H as (files & Hfiles & H).
  destruct (find _ files) as [p|]; [|discriminate].
  destruct (find _ files) as [r|]; [|discriminate].
  apply bind_ok_inv in H as (pc & _ & H).
  apply bind_ok_inv in H as (rc & _ & H).
  apply bind_ok_inv in H as (pd & _ & H).
  apply bind_ok_inv in H as (rd & _ & H).
  apply bind_ok_inv in H as (relations & Hrel & H).
  apply bind_ok_inv in H as (slides & Hslides & H).
  injection H as <-. simpl.
  exists files, relations. repeat split; try assumption.
  now apply mapM_slideOf.
Qed.

End Loader.

Lemma mapM_total {A B : Type} (f : A -> Result B) (l : list A) :
  (forall x, In x l -> exists y, f x = Ok y) -> exists ys, mapM f l = Ok ys.
Proof.
  induction l as [|x l IH]; intros H; simpl.
  - now exists [].
  - destruct (H x (or_introl eq_refl)) as [y Hy].
    destruct IH as [ys Hys]; [intros z Hz; apply H; now right|].
    rewrite Hy, Hys. simpl. now eexists.
Qed.

Lemma resolves_hasEntry (proto : bool) (files : list File.t)
  (relation : SlideRelation.t) (t : string) :
  toStringJS proto (SlideRelation.target relation) = Ok t ->
  resolves proto files relation = true <-> hasEntry files ("ppt/" ++ t).
Proof.
  intros Ht. unfold resolves. rewrite Ht. apply existsb_path.
Qed.

Lemma Forall2_ids (proto : bool) (parseString : string -> Result JSValue)
  (files : list File.t) (slides : list ParsedSlide.t)
  (relations : list SlideRelation.t) :
  Forall2 (slideOfRelation proto parseString files) slides relations ->
  map ParsedSlide.id slides = map SlideRelation.id relations.
Proof.
  induction 1 as [|slide relation slides relations [Hid _] _ IH]; simpl.
  - reflexivity.
  - now rewrite Hid, IH.
Qed.

(** The callback of [slideRelations.map] resolves when the target is a
    string and the entry it names, if any, reads and parses. *)
Lemma slideOf_total (proto : bool) (parseString : string -> Result JSValue)
  (files : list File.t) (relation : SlideRelation.t) (t : string) :
  SlideRelation.target relation = JString t ->
  (forall f, In f files -> File.path f = "ppt/" ++ t ->
             exists content tree,
               getFileContent f = Ok content /\
               parseString content = Ok tree) ->
  exists o, slideOf proto parseString files relation = Ok o.
Proof.
  intros Ht Hread. unfold slideOf.
  rewrite (findM_target proto files relation t) by now rewrite Ht.
  cbn [bind].
  destruct (find _ files) as [f|] eqn:Hfind; [|now eexists].
  apply find_path_some in Hfind as [Hin Hpath].
  destruct (Hread f Hin Hpath) as (content & tree & Hc & Hp).
  unfold parseXmlContent. rewrite Hc. cbn [bind]. rewrite Hp. cbn [bind].
  now eexists.
Qed.

(** C1.  The slides of a result of [parse] are, one for one and in the
    same order, the slide relations whose target resolves to an entry of
    the archive; the slide relations are those of the slide-typed records
    of the relationships document, in document order.  Each slide has the
    identifier of its relation and the path of the entry; the number of
    slides is the number of slide relations that resolve. *)
Theorem parse_slides_follow_relations :
  forall (proto : bool) (typeErrorMessage : TypeErrorKind -> string)
         (openFile : string -> Result (list File.t))
         (parseString : string -> Result JSValue)
         (filePath : string) (result : ParsedPresentation.t),
    parse proto typeErrorMessage openFile parseString filePath = Ok result ->
    exists files records,
      openFile filePath = Ok files /\
      relationshipList
        (Part.parsed (ParsedPresentation.relationships result))
      = Some records /\
      let relations := map relationOf (filter slideTyped records) in
      let resolved := filter (resolves proto files) relations in
      Forall2 (slideOfRelation proto parseString files)
        (ParsedPresentation.slides result) resolved /\
      map ParsedSlide.id (ParsedPresentation.slides result)
      = map SlideRelation.id resolved /\
      length (ParsedPresentation.slides result) = length resolved /\
      (forall relation t,
          toStringJS proto (SlideRelation.target relation) = Ok t ->
          resolves proto files relation = true <->
          hasEntry files ("ppt/" ++ t)).
Proof.
  intros proto typeErrorMessage openFile parseString filePath result H.
  apply parse_slides in H as (files & relations & Hfiles & Hrel & Hslides).
  apply getSlideRelations_ok in Hrel as (records & Hrecords & _ & ->).
  exists files, records. repeat split; try assumption.
  - now apply Forall2_ids in Hslides.
  - now apply Forall2_length in Hslides.
  - now apply resolves_hasEntry.
  - now apply resolves_hasEntry.
Qed.

(** C7.  When the archive lacks [ppt/presentation.xml] or
    [ppt/_rels/presentation.xml.rels], [parse] throws the error of an
    invalid structure and returns no result. *)
Theorem parse_requires_both_parts :
  forall (proto : bool) (typeErrorMessage : TypeErrorKind -> string)
         (openFile : string -> Result (list File.t))
         (parseString : string -> Result JSValue)
         (filePath : string) (files : list File.t),
    openFile filePath = Ok files ->
    ~ hasEntry files "ppt/presentation.xml" \/
    ~ hasEntry files "ppt/_rels/presentation.xml.rels" ->
    parse proto typeErrorMessage openFile parseString filePath
    = Throw (Error "Failed to parse PPTX: Invalid PPTX file structure") /\
    forall result,
      parse proto typeErrorMessage openFile parseString filePath <> Ok result.
Proof.
  intros proto typeErrorMessage openFile parseString filePath files Hfiles H.
  assert (E : parse proto typeErrorMessage openFile parseString filePath
              = Throw (Error "Failed to parse PPTX: Invalid PPTX file structure")).
  { unfold parse, parseTry. rewrite Hfiles. cbn [bind].
    destruct H as [H | H]; apply find_path_none in H; rewrite H.
    - reflexivity.
    - now destruct
        (find (fun d => (File.path d =? "ppt/presentation.xml")%string) files). }
  split; [exact E|]. intros result. now rewrite E.
Qed.

(** C8.  When both required parts read and parse, every slide relation
    has a string target and every entry that a slide relation names reads
    and parses, [parse] returns, whether or not some targets are missing.
    No slide of the result has the path of a missing target.  For two
    slide relations of which only the second resolves, the result has
    exactly one slide, with the identifier of the second relation. *)
Theorem parse_omits_missing_slides :
  forall (proto : bool) (typeErrorMessage : TypeErrorKind -> string)
         (openFile : string -> Result (list File.t))
         (parseString : string -> Result JSValue)
         (filePath : string) (files : list File.t)
         (presentationXml slideRelationsXml : File.t)
         (presentationContent relationshipsContent : string)
         (presentationData relationshipsData : JSValue)
         (relations : list SlideRelation.t),
    openFile filePath = Ok files ->
    find (fun d => (File.path d =? "ppt/presentation.xml")%string) files
    = Some presentationXml ->
    find (fun d => (File.path d =? "ppt/_rels/presentation.xml.rels")%string)
      files = Some slideRelationsXml ->
    getFileContent presentationXml = Ok presentationContent ->
    getFileContent slideRelationsXml = Ok relationshipsContent ->
    parseString presentationContent = Ok presentationData ->
    parseString relationshipsContent = Ok relationshipsData ->
    getSlideRelations relationshipsData = Ok relations ->
    (forall relation,
        In relation relations ->
        exists t,
          SlideRelation.target relation = JString t /\
          forall f, In f files -> File.path f = "ppt/" ++ t ->
                    exists content tree,
                      getFileContent f = Ok content /\
                      parseString content = Ok tree) ->
    exists result,
      parse proto typeErrorMessage openFile parseString filePath = Ok result /\
      Forall2 (slideOfRelation proto parseString files)
        (ParsedPresentation.slides result)
        (filter (resolves proto files) relations) /\
      (forall relation t,
          In relation relations ->
          SlideRelation.target relation = JString t ->
          ~ hasEntry files ("ppt/" ++ t) ->
          ~ In ("ppt/" ++ t)
              (map ParsedSlide.path (ParsedPresentation.slides result))) /\
      (forall id2 id3 t2 t3,
          relations = [SlideRelation.mk (JString id2) (JString t2);
                       SlideRelation.mk (JString id3) (JString t3)] ->
          ~ hasEntry files ("ppt/" ++ t2) ->
          hasEntry files ("ppt/" ++ t3) ->
          exists slide,
            ParsedPresentation.slides result = [slide] /\
            ParsedSlide.id slide = JString id3 /\
            ParsedSlide.path slide = "ppt/" ++ t3).
Proof.
  intros proto typeErrorMessage openFile parseString filePath files
    presentationXml slideRelationsXml presentationContent relationshipsContent
    presentationData relationshipsData relations
    Hfiles Hp Hr Hpc Hrc Hpd Hrd Hrel Hread.
  destruct (mapM_total (slideOf proto parseString files) relations)
    as [slides Hslides].
  { intros relation Hin. destruct (Hread relation Hin) as (t & Ht & Hf).
    now apply slideOf_total with (t := t). }
  assert (E : parse proto typeErrorMessage openFile parseString filePath
    = Ok (ParsedPresentation.mk
            (Part.mk "ppt/presentation.xml" presentationContent
               presentationData)
            (Part.mk "ppt/_rels/presentation.xml.rels" relationshipsContent
               relationshipsData)
            (dropNull slides))).
  { unfold parse, parseTry, parseXmlContent. rewrite Hfiles. cbn [bind].
    rewrite Hp, Hr, Hpc. cbn [bind]. rewrite Hrc. cbn [bind].
    rewrite Hpd. cbn [bind]. rewrite Hrd. cbn [bind].
    rewrite Hrel. cbn [bind]. now rewrite Hslides. }
  eexists. split; [exact E|].
  apply mapM_slideOf in Hslides. cbn [ParsedPresentation.slides].
  split; [exact Hslides|]. split.
  - intros relation t _ _ Hmissing Hin.
    apply in_map_iff in Hin as (slide & Hpath & Hin).
    destruct (Forall2_In_l _ _ _ _ Hslides Hin)
      as (relation' & _ & t' & f & _ & Hf & _ & Hsp & _).
    apply Hmissing. unfold hasEntry. apply in_map_iff.
    exists f. split; [congruence | exact Hf].
  - intros id2 id3 t2 t3 -> Hmissing Hpresent.
    assert (H2 : resolves proto files
                   (SlideRelation.mk (JString id2) (JString t2)) = false).
    { apply not_true_is_false. intros H.
      now apply (resolves_hasEntry proto files
                   (SlideRelation.mk (JString id2) (JString t2)) t2 eq_refl)
        in H. }
    assert (H3 : resolves proto files
                   (SlideRelation.mk (JString id3) (JString t3)) = true)
      by now apply (resolves_hasEntry proto files
                      (SlideRelation.mk (JString id3) (JString t3)) t3 eq_refl).
    cbn [filter] in Hslides. rewrite H2, H3 in Hslides.
    inversion Hslides as [|slide r3 rest nil Hs Hrest]; subst.
    inversion Hrest; subst.
    exists slide. split; [reflexivity|].
    destruct Hs as (Hid & t & f & Ht & _ & Hf & Hsp & _).
    simpl in Hid, Ht. injection Ht as <-. split; congruence.
Qed.

(** ** Where claims fail as stated *)

(** C3 as stated fails.  The only shape of [slideWithEmptyBody] contains a
    text body, yet no text is returned; and [slideWithTwoBodies] has a
    shape without text body, yet as many texts as shapes. *)
Lemma extractTextFromSlide_not_one_block_per_shape :
  (shapes slideWithEmptyBody = [shapeOf [bodyWithoutParagraph]] /\
   truthy (prop (shapeOf [bodyWithoutParagraph]) "p:txBody") = true /\
   extractTextFromSlide true slideWithEmptyBody = Ok [] /\
   extractTextFromSlide false slideWithEmptyBody = Ok []) /\
  (In bareShape (shapes slideWithTwoBodies) /\
   truthy (prop bareShape "p:txBody") = false /\
   length (shapes slideWithTwoBodies) = 2 /\
   extractTextFromSlide true slideWithTwoBodies = Ok ["One"; "Two"] /\
   extractTextFromSlide false slideWithTwoBodies = Ok ["One"; "Two"]).
Proof.
  repeat split; try reflexivity. right. now left.
Qed.

(** C9 as stated fails.  The extractor throws on [null], on a slide whose
    content-tree container list has no element, and on a slide whose run
    holds the element [<toString/>] where a text leaf is expected,
    whatever the prototype of the objects. *)
Lemma extractTextFromSlide_throws :
  extractTextFromSlide true JNull = Throw (TypeError (CannotRead "p:sld")) /\
  extractTextFromSlide true slideWithoutContainer
  = Throw (TypeError (CannotRead "p:spTree")) /\
  extractTextFromSlide true slideWithElementRun
  = Throw (TypeError NoPrimitive) /\
  extractTextFromSlide false slideWithElementRun
  = Throw (TypeError NoPrimitive).
Proof.
  repeat split; reflexivity.
Qed.

(** C10 as stated fails.  The text body below contains a paragraph node,
    and the paragraph yields a token, yet no text block is pushed: the
    token is an element and its join throws, whatever the prototype of
    the objects. *)
Lemma textBody_throws_on_element_run :
  prop (textBodyOf [paragraphOf [elementRun]]) "a:p"
  = JArray [paragraphOf [elementRun]] /\
  paragraphTokens (paragraphOf [elementRun])
  = Ok [JObject [("toString", JArray [JString ""])]] /\
  textBodyCallback true (textBodyOf [paragraphOf [elementRun]]) []
  = Throw (TypeError NoPrimitive) /\
  textBodyCallback false (textBodyOf [paragraphOf [elementRun]]) []
  = Throw (TypeError NoPrimitive).
Proof.
  repeat split; reflexivity.
Qed.

(** ** The theorems at the sample data *)

Lemma parse_slides_follow_relations_witness :
  parse true sampleTypeErrorMessage (sampleOpenFile sampleFiles)
    sampleParseString "presentation.pptx" = Ok sampleResult /\
  exists files records,
    sampleOpenFile sampleFiles "presentation.pptx" = Ok files /\
    relationshipList
      (Part.parsed (ParsedPresentation.relationships sampleResult))
    = Some records /\
    let relations := map relationOf (filter slideTyped records) in
    let resolved := filter (resolves true files) relations in
    Forall2 (slideOfRelation true sampleParseString files)
      (ParsedPresentation.slides sampleResult) resolved /\
    map ParsedSlide.id (ParsedPresentation.slides sampleResult)
    = map SlideRelation.id resolved /\
    length (ParsedPresentation.slides sampleResult) = length resolved /\
    (forall relation t,
        toStringJS true (SlideRelation.target relation) = Ok t ->
        resolves true files relation = true <->
        hasEntry files ("ppt/" ++ t)).
Proof.
  split; [vm_compute; reflexivity|].
  apply (parse_slides_follow_relations true sampleTypeErrorMessage
           (sampleOpenFile sampleFiles) sampleParseString "presentation.pptx"
           sampleResult).
  vm_compute; reflexivity.
Defined.

Lemma getSlideRelations_keeps_slide_suffix_witness :
  relationshipList sampleRelationships = Some sampleRecords /\
  getSlideRelations sampleRelationships
  = Ok [SlideRelation.mk (JString "rId2") (JString "slides/slide1.xml");
        SlideRelation.mk (JString "rId3") (JString "slides/slide2.xml")].
Proof.
  split; [reflexivity|].
  apply (proj1 (getSlideRelations_keeps_slide_suffix sampleRelationships
                  sampleRecords eq_refl)).
  split; reflexivity.
Defined.

Lemma extractTextFromSlide_one_block_per_text_body_witness :
  wfSlide sampleSlide = true /\
  extractTextFromSlide true sampleSlide = Ok ["Hello"] /\
  length ["Hello"] < length (shapes sampleSlide).
Proof.
  split; [reflexivity|]. split; [reflexivity|].
  destruct (extractTextFromSlide_one_block_per_text_body true sampleSlide)
    as [_ H].
  destruct (H ["Hello"] eq_refl) as (_ & _ & _ & _ & Hlt).
  apply Hlt.
  - intros shape [<- | [<- | []]]; simpl; lia.
  - exists bareShape. split; [right; now left | reflexivity].
Defined.

Lemma textBody_joins_empty_paragraph_witness :
  prop sampleTextBody "a:p"
  = JArray [paragraphOf [textRun "Hello"]; emptyParagraph] /\
  textBodyCallback true sampleTextBody []
  = Ok ["Hello" ++ newline ++ newline].
Proof.
  split; [reflexivity|].
  apply (textBody_joins_empty_paragraph true sampleTextBody
           (paragraphOf [textRun "Hello"]) emptyParagraph (textRun "Hello")
           "Hello" []); reflexivity.
Defined.

Lemma paragraph_concatenates_run_texts_witness :
  prop (paragraphOf [textRun "Hello "; textRun "World"]) "a:r"
  = JArray [textRun "Hello "; textRun "World"] /\
  paragraphCallback true (paragraphOf [textRun "Hello "; textRun "World"]) []
  = Ok ["Hello World"].
Proof.
  split; [reflexivity|].
  apply (paragraph_concatenates_run_texts true
           (paragraphOf [textRun "Hello "; textRun "World"])
           (textRun "Hello ") (textRun "World") "Hello " "World" []);
    reflexivity.
Defined.

Lemma paragraph_break_appends_newline_witness :
  truthy (prop (paragraphWithBreak [textRun "Line1"]) "a:br") = true /\
  paragraphCallback true (paragraphWithBreak [textRun "Line1"]) []
  = Ok ["Line1" ++ newline].
Proof.
  split; [reflexivity|].
  apply (paragraph_break_appends_newline true
           (paragraphWithBreak [textRun "Line1"]) (textRun "Line1")
           "Line1" []); reflexivity.
Defined.

Lemma parse_requires_both_parts_witness :
  sampleOpenFile filesWithoutRelationships "presentation.pptx"
  = Ok filesWithoutRelationships /\
  ~ hasEntry filesWithoutRelationships "ppt/_rels/presentation.xml.rels" /\
  parse true sampleTypeErrorMessage (sampleOpenFile filesWithoutRelationships)
    sampleParseString "presentation.pptx"
  = Throw (Error "Failed to parse PPTX: Invalid PPTX file structure").
Proof.
  assert (Habsent : ~ hasEntry filesWithoutRelationships
                        "ppt/_rels/presentation.xml.rels").
  { intros [H | [H | []]]; discriminate H. }
  split; [reflexivity|]. split; [exact Habsent|].
  apply (parse_requires_both_parts true sampleTypeErrorMessage
           (sampleOpenFile filesWithoutRelationships) sampleParseString
           "presentation.pptx" filesWithoutRelationships eq_refl).
  right. exact Habsent.
Defined.

Lemma parse_omits_missing_slides_witness :
  getSlideRelations sampleRelationships
  = Ok [SlideRelation.mk (JString "rId2") (JString "slides/slide1.xml");
        SlideRelation.mk (JString "rId3") (JString "slides/slide2.xml")] /\
  ~ hasEntry sampleFiles "ppt/slides/slide1.xml" /\
  hasEntry sampleFiles "ppt/slides/slide2.xml" /\
  exists result,
    parse true sampleTypeErrorMessage (sampleOpenFile sampleFiles)
      sampleParseString "presentation.pptx" = Ok result /\
    exists slide,
      ParsedPresentation.slides result = [slide] /\
      ParsedSlide.id slide = JString "rId3" /\
      ParsedSlide.path slide = "ppt/slides/slide2.xml".
Proof.
  assert (Hmissing : ~ hasEntry sampleFiles "ppt/slides/slide1.xml").
  { intros [H | [H | [H | [H | []]]]]; discriminate H. }
  assert (Hpresent : hasEntry sampleFiles "ppt/slides/slide2.xml").
  { do 3 right. now left. }
  split; [reflexivity|]. split; [exact Hmissing|]. split; [exact Hpresent|].
  destruct (parse_omits_missing_slides true sampleTypeErrorMessage
              (sampleOpenFile sampleFiles) sampleParseString
              "presentation.pptx" sampleFiles
              (File.mk "ppt/presentation.xml" [presentationText] None)
              (File.mk "ppt/_rels/presentation.xml.rels"
                 [relationshipsHead; relationshipsTail] None)
              presentationText relationshipsText
              samplePresentation sampleRelationships
              [SlideRelation.mk (JString "rId2") (JString "slides/slide1.xml");
               SlideRelation.mk (JString "rId3") (JString "slides/slide2.xml")]
              eq_refl eq_refl eq_refl eq_refl eq_refl eq_refl eq_refl eq_refl)
    as (result & Hparse & _ & _ & Hone).
  - intros relation [<- | [<- | []]].
    + exists "slides/slide1.xml". split; [reflexivity|].
      intros f [<- | [<- | [<- | [<- | []]]]] Hpath; discriminate Hpath.
    + exists "slides/slide2.xml". split; [reflexivity|].
      intros f [<- | [<- | [<- | [<- | []]]]] Hpath; try discriminate Hpath.
      exists slideText, sampleSlide. split; reflexivity.
  - exists result. split; [exact Hparse|].
    exact (Hone "rId2" "rId3" "slides/slide1.xml" "slides/slide2.xml"
             eq_refl Hmissing Hpresent).
Defined.

Lemma extractTextFromSlide_returns_on_wellformed_witness :
  nullish sampleSlide = false /\
  wfSlide sampleSlide = true /\
  exists texts, extractTextFromSlide true sampleSlide = Ok texts.
Proof.
  split; [reflexivity|]. split; [reflexivity|].
  apply (proj1 (extractTextFromSlide_returns_on_wellformed true sampleSlide
                  eq_refl)).
  reflexivity.
Defined.

Lemma textBody_emits_join_of_paragraph_tokens_witness :
  prop sampleTextBody "a:p"
  = JArray [paragraphOf [textRun "Hello"]; emptyParagraph] /\
  tokensOfParagraph (paragraphOf [textRun "Hello"]) = map JString ["Hello"] /\
  tokensOfParagraph emptyParagraph = map JString [newline] /\
  textBodyCallback true sampleTextBody []
  = Ok [String.concat newline (map (String.concat "") [["Hello"]; [newline]])].
Proof.
  split; [reflexivity|]. split; [reflexivity|]. split; [reflexivity|].
  assert (Hne : [paragraphOf [textRun "Hello"]; emptyParagraph] <> [])
    by discriminate.
  destruct (textBody_emits_join_of_paragraph_tokens true sampleTextBody
              [paragraphOf [textRun "Hello"]; emptyParagraph] eq_refl Hne)
    as (_ & _ & _ & Hwf).
  destruct (Hwf eq_refl) as (textLists & Hlists & Hblock).
  inversion Hlists as [|p1 l1 ps ls [H1 _] Hrest]; subst.
  inversion Hrest as [|p2 l2 ps' ls' [H2 _] Hnil]; subst.
  inversion Hnil; subst.
  destruct l1 as [|t1 [|t1' l1]]; try discriminate H1.
  destruct l2 as [|t2 [|t2' l2]]; try discriminate H2.
  injection H1 as <-. injection H2 as <-.
  exact (Hblock []).
Defined.

(** * Further properties of the code *)

(** ** Concatenation of strings *)

Lemma string_app_assoc (a b c : string) : (a ++ b) ++ c = a ++ b ++ c.
Proof.
  induction a as [|x a IH]; simpl; [reflexivity | now rewrite IH].
Qed.

Lemma string_app_nil_r (a : string) : a ++ "" = a.
Proof.
  induction a as [|x a IH]; simpl; [reflexivity | now rewrite IH].
Qed.

Lemma concat_empty_cons (x : string) (l : list string) :
  String.concat "" (x :: l) = x ++ String.concat "" l.
Proof.
  destruct l as [|y l]; simpl; [now rewrite string_app_nil_r | reflexivity].
Qed.

Lemma concat_empty_app (a b : list string) :
  String.concat "" (a ++ b) = String.concat "" a ++ String.concat "" b.
Proof.
  induction a as [|x a IH]; [reflexivity|].
  rewrite <- app_comm_cons, !concat_empty_cons, IH.
  now rewrite string_app_assoc.
Qed.

(** ** Paragraphs with any number of runs *)

Lemma each_text_runs (runs : list JSValue) (texts : list string) :
  Forall2 (fun run t => prop run "a:t" = JArray [JString t]) runs texts ->
  each runCallback runs [] = Ok (map JString texts).
Proof.
  induction 1 as [|run t runs texts Hrun _ IH]; [reflexivity|].
  cbn [each]. rewrite (runCallback_text _ _ _ _ Hrun). cbn [bind].
  rewrite (each_framed _ runCallback_framed), IH. reflexivity.
Qed.

(** X2.  For a paragraph whose runs all hold a text leaf, the string pushed
    is the run texts in order, then a newline if the paragraph has a break
    marker, then a newline if the paragraph has an end-of-paragraph marker
    or has neither run text nor break.  The break newline comes after all
    the run texts; a paragraph with a break and no run gets one newline,
    not two. *)
Theorem paragraph_string_of_text_runs :
  forall (proto : bool) (paragraph : JSValue) (runs : list JSValue)
         (texts : list string) (paragraphTexts : list string),
    nullish paragraph = false ->
    prop paragraph "a:r" = JArray runs \/
    (truthy (prop paragraph "a:r") = false /\ runs = []) ->
    Forall2 (fun run t => prop run "a:t" = JArray [JString t]) runs texts ->
    let break := truthy (prop paragraph "a:br") in
    let marker := truthy (prop paragraph "a:endParaRPr") in
    let blank := match texts with [] => negb break | _ :: _ => false end in
    paragraphCallback proto paragraph paragraphTexts
    = Ok (paragraphTexts ++
          [(String.concat "" texts
            ++ (if break then newline else "")
            ++ (if blank || marker then newline else ""))%string])%list.
Proof.
  intros proto paragraph runs texts paragraphTexts Hn Hruns Htexts
    break marker blank.
  set (withBreak := (texts ++ if break then [newline] else [])%list).
  set (tokens := (withBreak ++ if blank || marker then [newline] else [])%list).
  assert (Ht : paragraphTokens paragraph = Ok (map JString tokens)).
  { assert (Hcommon :
      Ok (let wb := if truthy (prop paragraph "a:br")
                    then (map JString texts ++ [JString newline])%list
                    else map JString texts in
          if (length wb =? 0)%nat || truthy (prop paragraph "a:endParaRPr")
          then (wb ++ [JString newline])%list else wb)
      = Ok (map JString tokens)).
    { unfold tokens, withBreak, blank. fold break. fold marker. cbv zeta.
      destruct texts as [|t texts], break, marker; reflexivity
        || (cbn [map app length Nat.eqb orb negb];
            rewrite ?map_app, ?app_nil_r; reflexivity). }
    destruct Hruns as [Hr | [Hr ->]].
    - rewrite (paragraphTokens_runs _ _ _ Hr (each_text_runs _ _ Htexts)).
      exact Hcommon.
    - inversion Htexts; subst.
      rewrite (paragraphTokens_no_runs _ Hn Hr). exact Hcommon. }
  unfold paragraphCallback. rewrite Ht. cbn [bind].
  assert (Hlen : (0 <? length (map JString tokens))%nat = true).
  { apply Nat.ltb_lt. rewrite length_map. unfold tokens, withBreak, blank.
    destruct texts as [|t texts], break, marker; simpl; rewrite ?length_app;
      simpl; lia. }
  rewrite Hlen, (joinWith_strings proto "" tokens). cbn [bind].
  rewrite joinStrings_concat. unfold tokens, withBreak.
  rewrite !concat_empty_app, string_app_assoc.
  generalize (blank || marker). generalize break.
  now intros [|] [|].
Qed.

Lemma paragraph_string_of_text_runs_witness :
  nullish (paragraphWithBreak [textRun "Line1"; textRun "Line2"]) = false /\
  paragraphCallback true
    (paragraphWithBreak [textRun "Line1"; textRun "Line2"]) []
  = Ok ["Line1" ++ "Line2" ++ newline].
Proof.
  split; [reflexivity|].
  apply (paragraph_string_of_text_runs true
           (paragraphWithBreak [textRun "Line1"; textRun "Line2"])
           [textRun "Line1"; textRun "Line2"] ["Line1"; "Line2"] []).
  - reflexivity.
  - left. reflexivity.
  - repeat constructor.
Defined.

(** X3.  The run callback pushes the first value of the text-content child
    as it is.  When that value is an element (the text-content child has
    an attribute or a child) and not a text leaf, the paragraph string is
    not the text: with objects that inherit from [Object.prototype] and
    have no [toString] child it is [[object Object]], and with objects
    without prototype the extraction throws. *)
Theorem paragraph_of_element_text :
  forall (paragraph run : JSValue) (fields : list (string * JSValue))
         (paragraphTexts : list string),
    prop paragraph "a:r" = JArray [run] ->
    prop run "a:t" = JArray [JObject fields] ->
    truthy (prop paragraph "a:br") = false ->
    truthy (prop paragraph "a:endParaRPr") = false ->
    paragraphTokens paragraph = Ok [JObject fields] /\
    (hasOwn "toString" fields = false ->
     paragraphCallback true paragraph paragraphTexts
     = Ok (paragraphTexts ++ ["[object Object]"])%list) /\
    paragraphCallback false paragraph paragraphTexts
    = Throw (TypeError NoPrimitive).
Proof.
  intros paragraph run fields paragraphTexts Hr Ht Hbr He.
  assert (Htok : paragraphTokens paragraph = Ok [JObject fields]).
  { rewrite (paragraphTokens_runs _ _ [JObject fields] Hr).
    - now rewrite Hbr, He.
    - simpl. now rewrite (runCallback_text _ _ _ _ Ht). }
  split; [exact Htok|]. split.
  - intros Hown. unfold paragraphCallback. rewrite Htok.
    cbn [bind length Nat.ltb Nat.leb join joinWith nullish toStringJS].
    unfold objectToString. now rewrite Hown.
  - unfold paragraphCallback. now rewrite Htok.
Qed.

Lemma paragraph_of_element_text_witness :
  prop (attributedRun "Hello") "a:t"
  = JArray [JObject [("_", JString "Hello");
                     ("$", JObject [("xml:space", JString "preserve")])]] /\
  paragraphCallback true (paragraphOf [attributedRun "Hello"]) []
  = Ok ["[object Object]"] /\
  paragraphCallback false (paragraphOf [attributedRun "Hello"]) []
  = Throw (TypeError NoPrimitive).
Proof.
  split; [reflexivity|].
  destruct (paragraph_of_element_text (paragraphOf [attributedRun "Hello"])
              (attributedRun "Hello")
              [("_", JString "Hello");
               ("$", JObject [("xml:space", JString "preserve")])] []
              eq_refl eq_refl eq_refl eq_refl) as (_ & Hplain & Hbare).
  split; [apply Hplain; reflexivity | exact Hbare].
Defined.

(** ** What the extractor walks *)







(** ** Failures of the loader *)

Lemma get_throw (v : JSValue) (k : string) (e : Exn) :
  get v k = Throw e -> exists kind, e = TypeError kind.
Proof.
  unfold get. destruct (nullish v); [|discriminate].
  intros H. injection H as <-. now eexists.
Qed.

Lemma slideTypeCallback_throw (rel : JSValue) (e : Exn) :
  slideTypeCallback rel = Throw e -> exists kind, e = TypeError kind.
Proof.
  unfold slideTypeCallback.
  destruct (get rel "$") as [attrs|e1] eqn:H1; cbn [bind];
    [|intros H; injection H as <-; now apply get_throw in H1].
  destruct (get attrs "Type") as [type|e2] eqn:H2; cbn [bind];
    [|intros H; injection H as <-; now apply get_throw in H2].
  destruct type; cbn [callEndsWith]; try discriminate;
    intros H; injection H as <-; now eexists.
Qed.

Lemma relationCallback_throw (rel : JSValue) (e : Exn) :
  relationCallback rel = Throw e -> exists kind, e = TypeError kind.
Proof.
  unfold relationCallback.
  destruct (get rel "$") as [attrs|e1] eqn:H1; cbn [bind];
    [|intros H; injection H as <-; now apply get_throw in H1].
  destruct (get attrs "Id") as [i|e2] eqn:H2; cbn [bind];
    [|intros H; injection H as <-; now apply get_throw in H2].
  destruct (get attrs "Target") as [t|e3] eqn:H3; cbn [bind];
    [discriminate|].
  intros H; injection H as <-; now apply get_throw in H3.
Qed.

Lemma filterM_throw {A : Type} (p : A -> Result bool) (P : Exn -> Prop)
  (l : list A) (e : Exn) :
  (forall x e', p x = Throw e' -> P e') -> filterM p l = Throw e -> P e.
Proof.
  intros Hp. induction l as [|x l IH]; cbn [filterM]; [discriminate|].
  destruct (p x) as [b|e1] eqn:Hx; cbn [bind].
  - destruct (filterM p l) as [r|e2]; cbn [bind]; [discriminate|].
    intros H. injection H as <-. now apply IH.
  - intros H. injection H as <-. now apply (Hp x).
Qed.

Lemma mapM_throw {A B : Type} (f : A -> Result B) (P : Exn -> Prop)
  (l : list A) (e : Exn) :
  (forall x e', f x = Throw e' -> P e') -> mapM f l = Throw e -> P e.
Proof.
  intros Hf. induction l as [|x l IH]; cbn [mapM]; [discriminate|].
  destruct (f x) as [y|e1] eqn:Hx; cbn [bind].
  - destruct (mapM f l) as [r|e2]; cbn [bind]; [discriminate|].
    intros H. injection H as <-. now apply IH.
  - intros H. injection H as <-. now apply (Hf x).
Qed.

(** [getSlideRelations] throws nothing but [TypeError]s. *)
Lemma getSlideRelations_throw (data : JSValue) (e : Exn) :
  getSlideRelations data = Throw e -> exists kind, e = TypeError kind.
Proof.
  unfold getSlideRelations.
  destruct (get data "Relationships") as [root|e1] eqn:H1; cbn [bind];
    [|intros H; injection H as <-; now apply get_throw in H1].
  destruct (get root "Relationship") as [rels|e2] eqn:H2; cbn [bind];
    [|intros H; injection H as <-; now apply get_throw in H2].
  destruct (arrayFilter rels slideTypeCallback) as [matching|e3] eqn:H3;
    cbn [bind].
  - apply (mapM_throw relationCallback
             (fun e => exists kind, e = TypeError kind)).
    apply relationCallback_throw.
  - intros H. injection H as <-.
    destruct rels; cbn [arrayFilter] in H3;
      try (injection H3 as <-; now eexists).
    revert H3.
    apply (filterM_throw slideTypeCallback
             (fun e => exists kind, e = TypeError kind)).
    apply slideTypeCallback_throw.
Qed.

Lemma mapM_throw_In {A B : Type} (f : A -> Result B) (l : list A) (x : A)
  (e : Exn) :
  In x l -> f x = Throw e -> exists e', mapM f l = Throw e'.
Proof.
  induction l as [|y l IH]; [intros []|].
  intros [-> | Hin] Hx; cbn [mapM].
  - rewrite Hx. now eexists.
  - destruct (f y) as [z|e1]; cbn [bind]; [|now eexists].
    destruct (IH Hin Hx) as [e' ->]. now eexists.
Qed.

(** X6.  When the relationships document has no record list (no root, a
    root without [Relationship] child such as an empty root, or a child
    that is no array), or has a record without string [Type] attribute,
    [getSlideRelations] throws a [TypeError] and [parse] fails with that
    error's message behind its prefix; it does not return an empty slide
    list. *)
Theorem parse_rejects_malformed_relationships :
  forall (proto : bool) (typeErrorMessage : TypeErrorKind -> string)
         (openFile : string -> Result (list File.t))
         (parseString : string -> Result JSValue)
         (filePath : string) (files : list File.t)
         (presentationXml slideRelationsXml : File.t)
         (presentationContent relationshipsContent : string)
         (presentationData relationshipsData : JSValue),
    openFile filePath = Ok files ->
    find (fun d => (File.path d =? "ppt/presentation.xml")%string) files
    = Some presentationXml ->
    find (fun d => (File.path d =? "ppt/_rels/presentation.xml.rels")%string)
      files = Some slideRelationsXml ->
    getFileContent presentationXml = Ok presentationContent ->
    getFileContent slideRelationsXml = Ok relationshipsContent ->
    parseString presentationContent = Ok presentationData ->
    parseString relationshipsContent = Ok relationshipsData ->
    relationshipList relationshipsData = None \/
    (exists records,
        relationshipList relationshipsData = Some records /\
        forallb typedRecord records = false) ->
    exists kind,
      getSlideRelations relationshipsData = Throw (TypeError kind) /\
      parse proto typeErrorMessage openFile parseString filePath
      = Throw (Error ("Failed to parse PPTX: " ++ typeErrorMessage kind)).
Proof.
  intros proto typeErrorMessage openFile parseString filePath files
    presentationXml slideRelationsXml presentationContent relationshipsContent
    presentationData relationshipsData Hfiles Hp Hr Hpc Hrc Hpd Hrd Hbad.
  destruct (getSlideRelations relationshipsData) as [rels|e] eqn:Hrel.
  - exfalso. apply getSlideRelations_ok in Hrel as (records & Hl & Hall & _).
    destruct Hbad as [Hnone | (records' & Hl' & Hsome)]; congruence.
  - destruct (getSlideRelations_throw _ _ Hrel) as [kind ->].
    exists kind. split; [reflexivity|].
    unfold parse, parseTry, parseXmlContent. rewrite Hfiles. cbn [bind].
    rewrite Hp, Hr, Hpc. cbn [bind]. rewrite Hrc. cbn [bind].
    rewrite Hpd. cbn [bind]. rewrite Hrd. cbn [bind].
    now rewrite Hrel.
Qed.

Lemma parse_rejects_malformed_relationships_witness :
  relationshipList emptyRelationships = None /\
  parse true sampleTypeErrorMessage
    (sampleOpenFile filesWithEmptyRelationships) extendedParseString
    "presentation.pptx"
  = Throw (Error ("Failed to parse PPTX: "
                  ++ "Cannot read properties of undefined (reading 'filter')")).
Proof.
  split; [reflexivity|].
  destruct (parse_rejects_malformed_relationships true sampleTypeErrorMessage
              (sampleOpenFile filesWithEmptyRelationships) extendedParseString
              "presentation.pptx" filesWithEmptyRelationships
              (File.mk "ppt/presentation.xml" [presentationText] None)
              (File.mk "ppt/_rels/presentation.xml.rels"
                 [emptyRelationshipsText] None)
              presentationText emptyRelationshipsText
              samplePresentation emptyRelationships
              eq_refl eq_refl eq_refl eq_refl eq_refl eq_refl eq_refl
              (or_introl eq_refl)) as (kind & Hkind & Hparse).
  injection Hkind as <-. exact Hparse.
Defined.

(** X7.  When the entry that a slide relation resolves to fails to read,
    or its text fails to parse, [parse] fails as a whole: there is no
    result with the other slides. *)
Theorem parse_aborts_on_slide_failure :
  forall (proto : bool) (typeErrorMessage : TypeErrorKind -> string)
         (openFile : string -> Result (list File.t))
         (parseString : string -> Result JSValue)
         (filePath : string) (files : list File.t)
         (presentationXml slideRelationsXml : File.t)
         (presentationContent relationshipsContent : string)
         (presentationData relationshipsData : JSValue)
         (relations : list SlideRelation.t) (relation : SlideRelation.t)
         (t : string) (slideFile : File.t) (e : Exn),
    openFile filePath = Ok files ->
    find (fun d => (File.path d =? "ppt/presentation.xml")%string) files
    = Some presentationXml ->
    find (fun d => (File.path d =? "ppt/_rels/presentation.xml.rels")%string)
      files = Some slideRelationsXml ->
    getFileContent presentationXml = Ok presentationContent ->
    getFileContent slideRelationsXml = Ok relationshipsContent ->
    parseString presentationContent = Ok presentationData ->
    parseString relationshipsContent = Ok relationshipsData ->
    getSlideRelations relationshipsData = Ok relations ->
    In relation relations ->
    toStringJS proto (SlideRelation.target relation) = Ok t ->
    find (fun f => (File.path f =? "ppt/" ++ t)%string) files
    = Some slideFile ->
    getFileContent slideFile = Throw e \/
    (exists content,
        getFileContent slideFile = Ok content /\
        parseString content = Throw e) ->
    (exists cause,
        parse proto typeErrorMessage openFile parseString filePath
        = Throw (Error ("Failed to parse PPTX: "
                        ++ message typeErrorMessage cause))) /\
    forall result,
      parse proto typeErrorMessage openFile parseString filePath <> Ok result.
Proof.
  intros proto typeErrorMessage openFile parseString filePath files
    presentationXml slideRelationsXml presentationContent relationshipsContent
    presentationData relationshipsData relations relation t slideFile e
    Hfiles Hp Hr Hpc Hrc Hpd Hrd Hrel Hin Ht Hfind Hfail.
  assert (Hslide : slideOf proto parseString files relation = Throw e).
  { unfold slideOf, parseXmlContent.
    rewrite (findM_target proto files relation t Ht). cbn [bind].
    rewrite Hfind.
    destruct Hfail as [-> | (content & -> & Hc)]; [reflexivity|].
    cbn [bind]. now rewrite Hc. }
  destruct (mapM_throw_In _ _ _ _ Hin Hslide) as [cause Hcause].
  assert (E : parse proto typeErrorMessage openFile parseString filePath
              = Throw (Error ("Failed to parse PPTX: "
                              ++ message typeErrorMessage cause))).
  { unfold parse, parseTry, parseXmlContent. rewrite Hfiles. cbn [bind].
    rewrite Hp, Hr, Hpc. cbn [bind]. rewrite Hrc. cbn [bind].
    rewrite Hpd. cbn [bind]. rewrite Hrd. cbn [bind].
    rewrite Hrel. cbn [bind]. now rewrite Hcause. }
  split; [now exists cause|]. intros result. now rewrite E.
Qed.

Lemma parse_aborts_on_slide_failure_witness :
  getFileContent (File.mk "ppt/slides/slide2.xml" ["<p:sld>"]
                    (Some (Error "unexpected end of file")))
  = Throw (Error "unexpected end of file") /\
  forall result,
    parse true sampleTypeErrorMessage
      (sampleOpenFile filesWithUnreadableSlide) sampleParseString
      "presentation.pptx" <> Ok result.
Proof.
  split; [reflexivity|].
  apply (parse_aborts_on_slide_failure true sampleTypeErrorMessage
           (sampleOpenFile filesWithUnreadableSlide) sampleParseString
           "presentation.pptx" filesWithUnreadableSlide
           (File.mk "ppt/presentation.xml" [presentationText] None)
           (File.mk "ppt/_rels/presentation.xml.rels"
              [relationshipsHead; relationshipsTail] None)
           presentationText relationshipsText
           samplePresentation sampleRelationships
           [SlideRelation.mk (JString "rId2") (JString "slides/slide1.xml");
            SlideRelation.mk (JString "rId3") (JString "slides/slide2.xml")]
           (SlideRelation.mk (JString "rId3") (JString "slides/slide2.xml"))
           "slides/slide2.xml"
           (File.mk "ppt/slides/slide2.xml" ["<p:sld>"]
              (Some (Error "unexpected end of file")))
           (Error "unexpected end of file")
           eq_refl eq_refl eq_refl eq_refl eq_refl eq_refl eq_refl eq_refl).
  - right. left. reflexivity.
  - reflexivity.
  - reflexivity.
  - left. reflexivity.
Defined.

(** ** What a result holds *)

(** X8.  In a result of [parse] the two parts carry their fixed paths, the
    text read from the first entry at that path and the tree the XML
    parser gives for that text; every slide too carries the tree of its
    own text. *)
Theorem parse_result_holds_parsed_texts :
  forall (proto : bool) (typeErrorMessage : TypeErrorKind -> string)
         (openFile : string -> Result (list File.t))
         (parseString : string -> Result JSValue)
         (filePath : string) (result : ParsedPresentation.t),
    parse proto typeErrorMessage openFile parseString filePath = Ok result ->
    let presentation := ParsedPresentation.presentation result in
    let relationships := ParsedPresentation.relationships result in
    exists files presentationXml slideRelationsXml,
      openFile filePath = Ok files /\
      find (fun d => (File.path d =? "ppt/presentation.xml")%string) files
      = Some presentationXml /\
      find (fun d => (File.path d =? "ppt/_rels/presentation.xml.rels")%string)
        files = Some slideRelationsXml /\
      Part.path presentation = "ppt/presentation.xml" /\
      getFileContent presentationXml = Ok (Part.xml presentation) /\
      parseString (Part.xml presentation) = Ok (Part.parsed presentation) /\
      Part.path relationships = "ppt/_rels/presentation.xml.rels" /\
      getFileContent slideRelationsXml = Ok (Part.xml relationships) /\
      parseString (Part.xml relationships) = Ok (Part.parsed relationships) /\
      Forall (fun slide =>
                parseString (ParsedSlide.xml slide)
                = Ok (ParsedSlide.parsed slide))
        (ParsedPresentation.slides result).
Proof.
  intros proto typeErrorMessage openFile parseString filePath result H.
  pose proof (parse_slides _ _ _ _ _ _ H)
    as (files' & relations' & _ & _ & Hslides).
  apply parse_ok in H. unfold parseTry, parseXmlContent in H.
  apply bind_ok_inv in H as (files & Hfiles & H).
  destruct (find _ files) as [p|] eqn:Hp; [|discriminate].
  destruct (find _ files) as [r|] eqn:Hr in H; [|discriminate].
  apply bind_ok_inv in H as (pc & Hpc & H).
  apply bind_ok_inv in H as (rc & Hrc & H).
  apply bind_ok_inv in H as (pd & Hpd & H).
  apply bind_ok_inv in H as (rd & Hrd & H).
  apply bind_ok_inv in H as (relations & _ & H).
  apply bind_ok_inv in H as (slides & _ & H).
  injection H as <-. cbv zeta.
  cbn [ParsedPresentation.presentation ParsedPresentation.relationships
       ParsedPresentation.slides Part.path Part.xml Part.parsed] in *.
  exists files, p, r. repeat (split; [assumption || reflexivity|]).
  clear - Hslides.
  induction Hslides as [|slide relation ss rs Hs _ IH]; constructor; [|exact IH].
  now destruct Hs as (_ & t & f & _ & _ & _ & _ & _ & Hparsed).
Qed.

Lemma parse_result_holds_parsed_texts_witness :
  parse true sampleTypeErrorMessage (sampleOpenFile sampleFiles)
    sampleParseString "presentation.pptx" = Ok sampleResult /\
  sampleParseString
    (Part.xml (ParsedPresentation.relationships sampleResult))
  = Ok (Part.parsed (ParsedPresentation.relationships sampleResult)).
Proof.
  split; [vm_compute; reflexivity|].
  destruct (parse_result_holds_parsed_texts true sampleTypeErrorMessage
              (sampleOpenFile sampleFiles) sampleParseString
              "presentation.pptx" sampleResult)
    as (files & p & r & _ & _ & _ & _ & _ & _ & _ & _ & Hparsed & _).
  - vm_compute; reflexivity.
  - exact Hparsed.
Defined.

(** ** [extractText] *)

Lemma mapM_ok_inv {A B : Type} (f : A -> Result B) (l : list A) :
  forall ys, mapM f l = Ok ys -> Forall2 (fun x y => f x = Ok y) l ys.
Proof.
  induction l as [|x l IH]; intros ys H; cbn [mapM] in H.
  - injection H as <-. constructor.
  - apply bind_ok_inv in H as (y & Hy & H).
    apply bind_ok_inv in H as (r & Hr & H).
    injection H as <-. constructor; [exact Hy | now apply IH].
Qed.

Lemma mapM_before_throw {A B : Type} (f : A -> Result B)
  (before after : list A) (x : A) (e : Exn) :
  Forall (fun y => exists z, f y = Ok z) before ->
  f x = Throw e ->
  mapM f (before ++ x :: after) = Throw e.
Proof.
  induction 1 as [|y before [z Hz] _ IH]; intros Hx; cbn [mapM app].
  - now rewrite Hx.
  - rewrite Hz. cbn [bind]. now rewrite (IH Hx).
Qed.

(** X9.  Whenever [extractText] returns, [parse] has returned, and the
    entries are the slides of that result, one each and in the same
    order, each with the texts [extractTextFromSlide] gives for its tree;
    [extractText] does return when [parse] does and every slide tree is
    well-formed. *)
Theorem extractText_follows_parse :
  forall (proto : bool) (typeErrorMessage : TypeErrorKind -> string)
         (openFile : string -> Result (list File.t))
         (parseString : string -> Result JSValue) (filePath : string),
    (forall contents,
        extractText proto typeErrorMessage openFile parseString filePath
        = Ok contents ->
        exists parsed,
          parse proto typeErrorMessage openFile parseString filePath
          = Ok parsed /\
          map fst contents = ParsedPresentation.slides parsed /\
          Forall (fun content =>
                    extractTextFromSlide proto
                      (ParsedSlide.parsed (fst content))
                    = Ok (snd content)) contents) /\
    (forall parsed,
        parse proto typeErrorMessage openFile parseString filePath
        = Ok parsed ->
        forallb (fun slide => wfSlide (ParsedSlide.parsed slide))
          (ParsedPresentation.slides parsed) = true ->
        exists contents,
          extractText proto typeErrorMessage openFile parseString filePath
          = Ok contents /\
          map fst contents = ParsedPresentation.slides parsed).
Proof.
  intros proto typeErrorMessage openFile parseString filePath.
  assert (Hinv : forall slides contents,
    mapM (fun slide =>
            slideText <- extractTextFromSlide proto (ParsedSlide.parsed slide) ;;
            Ok (slide, slideText)) slides = Ok contents ->
    map fst contents = slides /\
    Forall (fun content =>
              extractTextFromSlide proto (ParsedSlide.parsed (fst content))
              = Ok (snd content)) contents).
  { intros slides contents H. apply mapM_ok_inv in H.
    induction H as [|slide content slides contents Hs _ [IH1 IH2]].
    - split; constructor.
    - apply bind_ok_inv in Hs as (slideText & Ht & Hs). injection Hs as <-.
      split; [cbn [map fst]; now rewrite IH1 | now constructor]. }
  split.
  - intros contents H. unfold extractText in H.
    apply bind_ok_inv in H as (parsed & Hparse & H).
    exists parsed. split; [exact Hparse|]. now apply Hinv.
  - intros parsed Hparse Hwf. unfold extractText. rewrite Hparse. cbn [bind].
    destruct (mapM_total
                (fun slide =>
                   slideText <- extractTextFromSlide proto
                                  (ParsedSlide.parsed slide) ;;
                   Ok (slide, slideText))
                (ParsedPresentation.slides parsed)) as [contents Hc].
    { intros slide Hin.
      destruct (extractTextFromSlide_wf proto (ParsedSlide.parsed slide))
        as [texts Ht].
      - now apply (proj1 (forallb_forall _ _) Hwf).
      - rewrite Ht. now eexists. }
    exists contents. split; [exact Hc|]. now apply Hinv.
Qed.

Lemma extractText_follows_parse_witness :
  parse true sampleTypeErrorMessage (sampleOpenFile sampleFiles)
    sampleParseString "presentation.pptx" = Ok sampleResult /\
  exists contents,
    extractText true sampleTypeErrorMessage (sampleOpenFile sampleFiles)
      sampleParseString "presentation.pptx" = Ok contents /\
    map fst contents = ParsedPresentation.slides sampleResult.
Proof.
  split; [vm_compute; reflexivity|].
  apply (proj2 (extractText_follows_parse true sampleTypeErrorMessage
                  (sampleOpenFile sampleFiles) sampleParseString
                  "presentation.pptx") sampleResult).
  - vm_compute; reflexivity.
  - reflexivity.
Defined.

(** X10.  [extractText] fails with the error of [parse] when [parse]
    fails.  When [parse] returns and the extraction throws on the tree of
    a slide, the slides before it being extracted, [extractText] fails
    with that very error: nothing wraps it, it is not the [Error] with the
    prefix of [parse]. *)
Theorem extractText_passes_errors_on :
  forall (proto : bool) (typeErrorMessage : TypeErrorKind -> string)
         (openFile : string -> Result (list File.t))
         (parseString : string -> Result JSValue) (filePath : string),
    (forall e,
        parse proto typeErrorMessage openFile parseString filePath = Throw e ->
        extractText proto typeErrorMessage openFile parseString filePath
        = Throw e) /\
    (forall parsed before slide after e,
        parse proto typeErrorMessage openFile parseString filePath
        = Ok parsed ->
        ParsedPresentation.slides parsed = (before ++ slide :: after)%list ->
        Forall (fun s =>
                  exists texts,
                    extractTextFromSlide proto (ParsedSlide.parsed s)
                    = Ok texts) before ->
        extractTextFromSlide proto (ParsedSlide.parsed slide) = Throw e ->
        extractText proto typeErrorMessage openFile parseString filePath
        = Throw e).
Proof.
  intros proto typeErrorMessage openFile parseString filePath. split.
  - intros e H. unfold extractText. now rewrite H.
  - intros parsed before slide after e Hparse Hslides Hbefore Hslide.
    unfold extractText. rewrite Hparse. cbn [bind]. rewrite Hslides.
    apply mapM_before_throw.
    + eapply Forall_impl; [|exact Hbefore].
      intros s [texts Ht]. cbv beta. rewrite Ht. now eexists.
    + now rewrite Hslide.
Qed.

Lemma extractText_passes_errors_on_witness :
  (exists parsed,
      parse true sampleTypeErrorMessage (sampleOpenFile filesWithElementRun)
        extendedParseString "presentation.pptx" = Ok parsed /\
      map ParsedSlide.id (ParsedPresentation.slides parsed)
      = [JString "rId2"; JString "rId3"]) /\
  extractText true sampleTypeErrorMessage (sampleOpenFile filesWithElementRun)
    extendedParseString "presentation.pptx"
  = Throw (TypeError NoPrimitive).
Proof.
  split; [eexists; split; vm_compute; reflexivity|].
  apply (proj2 (extractText_passes_errors_on true sampleTypeErrorMessage
                  (sampleOpenFile filesWithElementRun) extendedParseString
                  "presentation.pptx")
           (ParsedPresentation.mk
              (Part.mk "ppt/presentation.xml" presentationText
                 samplePresentation)
              (Part.mk "ppt/_rels/presentation.xml.rels" relationshipsText
                 sampleRelationships)
              [ParsedSlide.mk (JString "rId2") "ppt/slides/slide1.xml"
                 elementRunSlideText slideWithElementRun;
               ParsedSlide.mk (JString "rId3") "ppt/slides/slide2.xml"
                 slideText sampleSlide])
           []
           (ParsedSlide.mk (JString "rId2") "ppt/slides/slide1.xml"
              elementRunSlideText slideWithElementRun)
           [ParsedSlide.mk (JString "rId3") "ppt/slides/slide2.xml"
              slideText sampleSlide]
           (TypeError NoPrimitive)).
  - vm_compute; reflexivity.
  - reflexivity.
  - constructor.
  - reflexivity.
Defined.

(** ** Records without target *)

(** X11.  [getSlideRelations] asks a record for its [Type] only: a typed
    record without [Target] attribute gives a relation whose target is
    [undefined], no error.  [parse] then looks for the entry
    [ppt/undefined], and the relation yields no slide when the archive
    has no such entry. *)
Theorem relation_without_target_is_dropped :
  forall (proto : bool) (parseString : string -> Result JSValue)
         (files : list File.t) (rel : JSValue),
    typedRecord rel = true ->
    attribute rel "Target" = JUndefined ->
    relationCallback rel
    = Ok (SlideRelation.mk (attribute rel "Id") JUndefined) /\
    (resolves proto files (relationOf rel) = true <->
     hasEntry files "ppt/undefined") /\
    (~ hasEntry files "ppt/undefined" ->
     slideOf proto parseString files (relationOf rel) = Ok None).
Proof.
  intros proto parseString files rel Htyped Htarget.
  assert (Hstr : toStringJS proto (SlideRelation.target (relationOf rel))
                 = Ok "undefined").
  { unfold relationOf. cbn [SlideRelation.target]. now rewrite Htarget. }
  split; [|split].
  - rewrite (relationCallback_typed rel Htyped). unfold relationOf.
    now rewrite Htarget.
  - exact (resolves_hasEntry proto files (relationOf rel) "undefined" Hstr).
  - intros Habsent. unfold slideOf.
    rewrite (findM_target proto files (relationOf rel) "undefined" Hstr).
    cbn [bind]. apply find_path_none in Habsent.
    change ("ppt/" ++ "undefined") with "ppt/undefined". now rewrite Habsent.
Qed.

Lemma relation_without_target_is_dropped_witness :
  typedRecord recordWithoutTarget = true /\
  getSlideRelations
    (JObject [("Relationships",
               JObject [("Relationship", JArray [recordWithoutTarget])])])
  = Ok [SlideRelation.mk JUndefined JUndefined] /\
  slideOf true sampleParseString sampleFiles (relationOf recordWithoutTarget)
  = Ok None.
Proof.
  split; [reflexivity|]. split; [reflexivity|].
  apply (relation_without_target_is_dropped true sampleParseString
           sampleFiles recordWithoutTarget eq_refl eq_refl).
  intros [H | [H | [H | [H | []]]]]; discriminate H.
Defined.

(** ** Conversion of objects on well-formed trees *)

Lemma each_ext {S : Type} (callback1 callback2 : JSValue -> S -> Result S)
  (items : list JSValue) :
  (forall x, In x items -> forall s, callback1 x s = callback2 x s) ->
  forall s, each callback1 items s = each callback2 items s.
Proof.
  induction items as [|x items IH]; intros H s; [reflexivity|].
  cbn [each]. rewrite (H x (or_introl eq_refl) s).
  destruct (callback2 x s) as [s'|e]; cbn [bind]; [|reflexivity].
  apply IH. intros y Hy. apply H. now right.
Qed.

Lemma paragraphCallback_any_prototype (paragraph : JSValue)
  (acc : list string) :
  wfParagraph paragraph = true ->
  paragraphCallback true paragraph acc = paragraphCallback false paragraph acc.
Proof.
  intros H. destruct (paragraphTokens_wf paragraph H) as [l Hl].
  unfold paragraphCallback. rewrite Hl. cbn [bind].
  destruct (0 <? length (map JString l))%nat; [|reflexivity].
  now rewrite !joinWith_strings.
Qed.

Lemma textBodyCallback_any_prototype (textBody : JSValue)
  (acc : list string) :
  wfTextBody textBody = true ->
  textBodyCallback true textBody acc = textBodyCallback false textBody acc.
Proof.
  unfold wfTextBody. intros H.
  apply andb_true_iff in H as [Hn H]. apply negb_true_iff in Hn.
  unfold textBodyCallback. rewrite !(get_ok _ _ Hn). cbn [bind].
  destruct (truthy (prop textBody "a:p")) eqn:Ht; [|reflexivity].
  destruct (childList_array _ _ H Ht) as (ps & -> & Hps). cbn [forEach].
  rewrite (each_ext (paragraphCallback true) (paragraphCallback false) ps);
    [reflexivity|].
  intros p Hin s. apply paragraphCallback_any_prototype.
  now apply (proj1 (forallb_forall _ _) Hps).
Qed.

Lemma shapeCallback_any_prototype (shape : JSValue) (acc : list string) :
  wfShape shape = true ->
  shapeCallback true shape acc = shapeCallback false shape acc.
Proof.
  unfold wfShape. intros H.
  apply andb_true_iff in H as [Hn H]. apply negb_true_iff in Hn.
  unfold shapeCallback. rewrite !(get_ok _ _ Hn). cbn [bind].
  destruct (truthy (prop shape "p:txBody")) eqn:Ht; [|reflexivity].
  destruct (childList_array _ _ H Ht) as (bodies & -> & Hbodies).
  cbn [forEach]. apply each_ext.
  intros body Hin s. apply textBodyCallback_any_prototype.
  now apply (proj1 (forallb_forall _ _) Hbodies).
Qed.

(** X12.  On a well-formed slide tree, where every text-content child
    holds a text leaf, the extractor converts no object to a string: the
    texts are the same whether or not the objects of the tree inherit
    from [Object.prototype]. *)
Theorem extractTextFromSlide_any_prototype :
  forall (slideData : JSValue),
    wfSlide slideData = true ->
    extractTextFromSlide true slideData = extractTextFromSlide false slideData.
Proof.
  intros slideData H. unfold wfSlide in H.
  apply andb_true_iff in H as [Hn H]. apply negb_true_iff in Hn.
  rewrite !(extractTextFromSlide_unfold _ _ Hn). cbv zeta in *.
  destruct (truthy (prop slideData "p:sld")); [|reflexivity].
  destruct (truthy (prop (prop slideData "p:sld") "p:cSld")); [|reflexivity].
  apply andb_true_iff in H as [H3 H]. apply negb_true_iff in H3. rewrite H3.
  destruct (truthy (prop (first (prop (prop slideData "p:sld") "p:cSld"))
                      "p:spTree")); [|reflexivity].
  apply andb_true_iff in H as [H5 H]. apply negb_true_iff in H5. rewrite H5.
  destruct (truthy (prop (first (prop (first (prop (prop slideData "p:sld")
                          "p:cSld")) "p:spTree")) "p:sp")) eqn:H6;
    [|reflexivity].
  destruct (childList_array _ _ H H6) as (l & -> & Hl). cbn [forEach].
  apply each_ext. intros shape Hin s. apply shapeCallback_any_prototype.
  now apply (proj1 (forallb_forall _ _) Hl).
Qed.

Lemma extractTextFromSlide_any_prototype_witness :
  wfSlide sampleSlide = true /\
  extractTextFromSlide true sampleSlide = extractTextFromSlide false sampleSlide.
Proof.
  split; [reflexivity|].
  apply (extractTextFromSlide_any_prototype sampleSlide). reflexivity.
Defined.
